(** * snapchat_dlp: the story downloader, embedded and verified

    A shallow embedding of [snapchat_dlp/snapchat_dlp.py] (class [SnapchatDL]):
    the fetch of a user's story page, the extraction of the embedded JSON
    payload, the naming of each story item and the submission of one download
    task per item.

    Conventions.
    - Python [str] is [string]; the operations used here (concatenation,
      prefix and suffix tests, [len], indexing, [int], [repr]) are those of
      Python on ASCII text.  A character beyond ASCII is kept as the bytes of
      its UTF-8 form.
    - Python values are the type [value]: [None], [bool], [int], [str],
      [list] and [dict] with [str] keys, that is what [json.loads] builds,
      floats apart (no field the program reads is a float).
    - An operation that can raise returns an [outcome]; code with effects
      (network, log, file system, thread pool, object store) runs in the monad
      [M] over a [World], and effects that happened before an exception was
      raised stay in the world.
    - [KeyboardInterrupt] is asynchronous and never raised by a definition
      here; its handler is kept where the source has it. *)

From Stdlib Require Import ZArith List String Ascii Bool Lia DecimalString.
Import ListNotations.
#[local] Set Warnings "-register-all".
#[local] Open Scope list_scope.
#[local] Open Scope string_scope.
#[local] Open Scope Z_scope.

(* ================================================================= *)
(** ** Text *)

Module Text.

(** The double quote character, and a string made of it. *)
Definition dquote : ascii := "034"%char.
Definition dq : string := String dquote EmptyString.
Definition squote : ascii := "039"%char.
Definition backslash : ascii := "092"%char.

Definition code (c : ascii) : Z := Z.of_nat (nat_of_ascii c).

Definition is_digit (c : ascii) : bool := (48 <=? code c) && (code c <=? 57).

(** White space as [str.isspace] and the regular expression class [\s] see it
    (below code point 128). *)
Definition is_space (c : ascii) : bool :=
  ((9 <=? code c) && (code c <=? 13)) || ((28 <=? code c) && (code c <=? 32)).

Definition chars (s : string) : list ascii := list_ascii_of_string s.
Definition of_chars (l : list ascii) : string := string_of_list_ascii l.

Definition len (s : string) : Z := Z.of_nat (String.length s).

(** [s.startswith(p)] *)
Definition startswith (s p : string) : bool := String.prefix p s.

Fixpoint last_char (s : string) : option ascii :=
  match s with
  | EmptyString => None
  | String c EmptyString => Some c
  | String _ rest => last_char rest
  end.

(** [s.endswith(p)] for a one-character [p]. *)
Definition endswith_char (s : string) (c : ascii) : bool :=
  match last_char s with
  | Some d => Ascii.eqb d c
  | None => false
  end.

Fixpoint has_char (c : ascii) (s : string) : bool :=
  match s with
  | EmptyString => false
  | String d rest => Ascii.eqb d c || has_char c rest
  end.

(** [needle in hay] for two strings. *)
Fixpoint contains (hay needle : string) : bool :=
  String.prefix needle hay ||
  match hay with
  | EmptyString => false
  | String _ rest => contains rest needle
  end.

Fixpoint join (sep : string) (parts : list string) : string :=
  match parts with
  | [] => ""
  | [p] => p
  | p :: rest => p ++ sep ++ join sep rest
  end.

(** Decimal digits. *)
Definition digit_char (d : Z) : ascii := ascii_of_nat (48 + Z.to_nat d).
Definition digit_val (c : ascii) : Z := code c - 48.

(** [str(n)] for an integer. *)
Definition of_Z (z : Z) : string := NilZero.string_of_int (Z.to_int z).

(** Two hexadecimal digits, as [repr] prints a control character. *)
Definition hex_digit (d : Z) : ascii :=
  if d <? 10 then ascii_of_nat (48 + Z.to_nat d) else ascii_of_nat (87 + Z.to_nat d).
Definition hex2 (n : Z) : string :=
  String (hex_digit (n / 16)) (String (hex_digit (n mod 16)) "").

(** [repr(s)] of a string: single quotes unless the text has a single quote
    and no double quote; backslash, the quote in use and control characters
    escaped. *)
Definition repr_quote (s : string) : ascii :=
  if has_char squote s && negb (has_char dquote s) then dquote else squote.

Definition repr_char (q c : ascii) : string :=
  if Ascii.eqb c backslash then String backslash (String backslash "")
  else if Ascii.eqb c q then String backslash (String q "")
  else if code c =? 10 then String backslash "n"
  else if code c =? 13 then String backslash "r"
  else if code c =? 9 then String backslash "t"
  else if (code c <? 32) || (code c =? 127) then String backslash ("x" ++ hex2 (code c))
  else String c "".

Fixpoint repr_body (q : ascii) (s : string) : string :=
  match s with
  | EmptyString => ""
  | String c rest => repr_char q c ++ repr_body q rest
  end.

Definition repr (s : string) : string :=
  let q := repr_quote s in
  String q (repr_body q s ++ String q "").

(** White space as the parser of [int] sees it: the six characters of C's
    [isspace] (the separators 28 to 31 are not among them). *)
Definition is_c_space (c : ascii) : bool :=
  ((9 <=? code c) && (code c <=? 13)) || (code c =? 32).

(** The white space taken off at the left, then at the right. *)
Fixpoint lstrip (cs : list ascii) : list ascii :=
  match cs with
  | c :: rest => if is_c_space c then lstrip rest else cs
  | [] => []
  end.

Definition strip (cs : list ascii) : list ascii := rev (lstrip (rev (lstrip cs))).

End Text.

(* ================================================================= *)
(** ** Exceptions and outcomes *)

(** The exception classes the program meets.  The first group is Python's
    own, the second the library [requests], the third [snapchat_dlp.utils]. *)
Inductive exc_class : Type :=
| BaseException | Exception | KeyboardInterrupt
| LookupError | IndexError | KeyError
| ValueError | JSONDecodeError | TypeError | OSError
| RuntimeError | RecursionError
| RequestException
| APIResponseError | UserNotFoundError | NoStoriesFound.

Definition exc_class_eqb (a b : exc_class) : bool :=
  match a, b with
  | BaseException, BaseException | Exception, Exception
  | KeyboardInterrupt, KeyboardInterrupt | LookupError, LookupError
  | IndexError, IndexError | KeyError, KeyError | ValueError, ValueError
  | JSONDecodeError, JSONDecodeError | TypeError, TypeError | OSError, OSError
  | RuntimeError, RuntimeError | RecursionError, RecursionError
  | RequestException, RequestException
  | APIResponseError, APIResponseError | UserNotFoundError, UserNotFoundError
  | NoStoriesFound, NoStoriesFound => true
  | _, _ => false
  end.

(** A raised exception: its class and [str(e)]. *)
Record exn : Type := mk_exn { exn_class : exc_class; exn_str : string }.

Inductive outcome (A : Type) : Type :=
| Ret (a : A)
| Raise (e : exn).
Arguments Ret {A} a.
Arguments Raise {A} e.

Definition obind {A B} (o : outcome A) (k : A -> outcome B) : outcome B :=
  match o with
  | Ret a => k a
  | Raise e => Raise e
  end.

(* ================================================================= *)
(** ** Python values *)

Inductive value : Type :=
| VNone
| VBool (b : bool)
| VInt (z : Z)
| VStr (s : string)
| VList (items : list value)
| VDict (fields : list (string * value)).

Module Py.

Import Text.

Definition type_name (v : value) : string :=
  match v with
  | VNone => "NoneType"
  | VBool _ => "bool"
  | VInt _ => "int"
  | VStr _ => "str"
  | VList _ => "list"
  | VDict _ => "dict"
  end.

(** [repr(v)] and [str(v)]. *)
Fixpoint repr (v : value) : string :=
  match v with
  | VNone => "None"
  | VBool true => "True"
  | VBool false => "False"
  | VInt z => of_Z z
  | VStr s => Text.repr s
  | VList items =>
      "[" ++ (fix go (l : list value) : string :=
                match l with
                | [] => ""
                | x :: rest =>
                    match rest with
                    | [] => repr x
                    | _ :: _ => repr x ++ ", " ++ go rest
                    end
                end) items ++ "]"
  | VDict fields =>
      "{" ++ (fix go (l : list (string * value)) : string :=
                match l with
                | [] => ""
                | (k, x) :: rest =>
                    match rest with
                    | [] => Text.repr k ++ ": " ++ repr x
                    | _ :: _ => Text.repr k ++ ": " ++ repr x ++ ", " ++ go rest
                    end
                end) fields ++ "}"
  end.

Definition str (v : value) : string :=
  match v with
  | VStr s => s
  | _ => repr v
  end.

(** [d.get(k)] on the fields of a dict. *)
Fixpoint dict_get (d : list (string * value)) (k : string) : option value :=
  match d with
  | [] => None
  | (k', v) :: rest => if String.eqb k' k then Some v else dict_get rest k
  end.

(** [d[k] = v]: the entry is replaced where the key exists, added at the end
    otherwise. *)
Fixpoint dict_set (d : list (string * value)) (k : string) (v : value)
  : list (string * value) :=
  match d with
  | [] => [(k, v)]
  | (k', v') :: rest =>
      if String.eqb k' k then (k', v) :: rest else (k', v') :: dict_set rest k v
  end.

(** [l[i]] on a sequence, negative indices counted from the end. *)
Definition seq_index {A} (l : list A) (i : Z) : option A :=
  let n := Z.of_nat (List.length l) in
  let j := if i <? 0 then i + n else i in
  if (0 <=? j) && (j <? n) then nth_error l (Z.to_nat j) else None.

Definition raise {A} (c : exc_class) (msg : string) : outcome A :=
  Raise (mk_exn c msg).

(** An index given as a value: [int], or [bool] (a subclass of [int]). *)
Definition as_index (k : value) : option Z :=
  match k with
  | VInt z => Some z
  | VBool b => Some (if b then 1 else 0)
  | _ => None
  end.

(** [x[k]] *)
Definition getitem (x k : value) : outcome value :=
  match x with
  | VDict d =>
      match k with
      | VStr s =>
          match dict_get d s with
          | Some v => Ret v
          | None => raise KeyError (repr k)
          end
      | VList _ | VDict _ => raise TypeError ("unhashable type: '" ++ type_name k ++ "'")
      | _ => raise KeyError (repr k)
      end
  | VList l =>
      match as_index k with
      | Some i =>
          match seq_index l i with
          | Some v => Ret v
          | None => raise IndexError "list index out of range"
          end
      | None =>
          raise TypeError ("list indices must be integers or slices, not " ++ type_name k)
      end
  | VStr s =>
      match as_index k with
      | Some i =>
          match seq_index (chars s) i with
          | Some c => Ret (VStr (String c ""))
          | None => raise IndexError "string index out of range"
          end
      | None =>
          raise TypeError ("string indices must be integers, not '" ++ type_name k ++ "'")
      end
  | _ => raise TypeError ("'" ++ type_name x ++ "' object is not subscriptable")
  end.

(** [k in x] for a string [k]. *)
Definition contains_str (k : string) (x : value) : outcome bool :=
  match x with
  | VDict d => Ret (match dict_get d k with Some _ => true | None => false end)
  | VList l =>
      Ret (existsb (fun v => match v with VStr s => String.eqb s k | _ => false end) l)
  | VStr s => Ret (Text.contains s k)
  | _ => raise TypeError ("argument of type '" ++ type_name x ++ "' is not iterable")
  end.

(** [bool(x)], as [if not x] tests it. *)
Definition truth (x : value) : bool :=
  match x with
  | VNone => false
  | VBool b => b
  | VInt z => negb (z =? 0)
  | VStr s => negb (String.eqb s "")
  | VList l => match l with [] => false | _ => true end
  | VDict d => match d with [] => false | _ => true end
  end.

(** [len(x)] *)
Definition len (x : value) : outcome Z :=
  match x with
  | VStr s => Ret (Text.len s)
  | VList l => Ret (Z.of_nat (List.length l))
  | VDict d => Ret (Z.of_nat (List.length d))
  | _ => raise TypeError ("object of type '" ++ type_name x ++ "' has no len()")
  end.

(** The items [for media in x] goes through. *)
Definition iter (x : value) : outcome (list value) :=
  match x with
  | VList l => Ret l
  | VStr s => Ret (map (fun c => VStr (String c "")) (chars s))
  | VDict d => Ret (map (fun kv => VStr (fst kv)) d)
  | _ => raise TypeError ("'" ++ type_name x ++ "' object is not iterable")
  end.

(** The run of decimal digits, with single underscores between them, at the
    head of a text: its value, the number of its digits and what follows it;
    nothing when the run is empty or an underscore is not between two
    digits. *)
Fixpoint scan_digits (cs : list ascii) (acc digits : Z) (after_digit : bool)
  : option (Z * Z * list ascii) :=
  match cs with
  | [] => if after_digit then Some (acc, digits, []) else None
  | c :: rest =>
      if is_digit c then scan_digits rest (10 * acc + digit_val c) (digits + 1) true
      else if Ascii.eqb c "_"%char then
             if after_digit then scan_digits rest acc digits false else None
      else if after_digit then Some (acc, digits, cs) else None
  end.

(** The default of [sys.get_int_max_str_digits()], and what a longer run of
    digits raises. *)
Definition max_str_digits : Z := 4300.

Definition too_many_digits {A : Type} (digits : Z) : outcome A :=
  raise ValueError
    ("Exceeds the limit (" ++ Text.of_Z max_str_digits
       ++ " digits) for integer string conversion: value has " ++ Text.of_Z digits
       ++ " digits; use sys.set_int_max_str_digits() to increase the limit").

(** [int(s)]: white space off both ends, a sign, the digits; the number of
    digits is checked before what follows them. *)
Definition parse_int (s : string) : outcome Z :=
  let invalid := raise ValueError ("invalid literal for int() with base 10: " ++ Text.repr s) in
  let unsigned (ds : list ascii) : outcome Z :=
    match scan_digits ds 0 0 false with
    | Some (n, digits, rest) =>
        if max_str_digits <? digits then too_many_digits digits
        else match rest with
             | [] => Ret n
             | _ :: _ => invalid
             end
    | None => invalid
    end in
  match strip (chars s) with
  | "-"%char :: ds => obind (unsigned ds) (fun n => Ret (- n))
  | "+"%char :: ds => unsigned ds
  | ds => unsigned ds
  end.

(** [int(x)] *)
Definition int (x : value) : outcome Z :=
  match x with
  | VInt z => Ret z
  | VBool b => Ret (if b then 1 else 0)
  | VStr s => parse_int s
  | _ =>
      raise TypeError
        ("int() argument must be a string, a bytes-like object or a real number, not '"
           ++ type_name x ++ "'")
  end.

(** [template.format(args)] for templates whose fields are all [{}]; doubled
    braces stand for one. *)
Fixpoint format_chars (t : list ascii) (args : list string) : outcome string :=
  match t with
  | [] => Ret ""
  | "{"%char :: "{"%char :: rest =>
      obind (format_chars rest args) (fun r => Ret (String "{" r))
  | "{"%char :: "}"%char :: rest =>
      match args with
      | a :: args' => obind (format_chars rest args') (fun r => Ret (a ++ r))
      | [] => raise IndexError "Replacement index out of range for positional args tuple"
      end
  | "{"%char :: _ => raise ValueError "unsupported replacement field"
  | "}"%char :: "}"%char :: rest =>
      obind (format_chars rest args) (fun r => Ret (String "}" r))
  | "}"%char :: _ => raise ValueError "Single '}' encountered in format string"
  | c :: rest => obind (format_chars rest args) (fun r => Ret (String c r))
  end.

Definition format (template : string) (args : list string) : outcome string :=
  format_chars (chars template) args.

End Py.

(* ================================================================= *)
(** ** Paths: [os.path.join] (POSIX) *)

Module Path.

Import Text.

(** One step of [posixpath.join]: a component that starts with the separator
    replaces what came before; otherwise it is appended, after a separator
    unless the path so far is empty or ends with one. *)
Definition join2 (path b : string) : string :=
  if startswith b "/" then b
  else if String.eqb path "" || endswith_char path "/" then path ++ b
  else path ++ "/" ++ b.

(** [os.path.join(a, *p)] *)
Definition join (a : string) (p : list string) : string := fold_left join2 p a.

End Path.

(* ================================================================= *)
(** ** Time stamps: [strf_time] *)

Module Calendar.

Import Text.

Record fields : Type := mk_fields {
  year : Z; month : Z; day : Z; hour : Z; minute : Z; second : Z
}.

(** Day of the era, year of the era, day of the year (from 1 March) and the
    civil date of a day count since 1970-01-01, in the proleptic Gregorian
    calendar. *)
Definition doe_of (days : Z) : Z := (days + 719468) mod 146097.
Definition era_of (days : Z) : Z := (days + 719468) / 146097.
Definition yoe_of (doe : Z) : Z :=
  (doe - doe / 1460 + doe / 36524 - doe / 146096) / 365.
Definition doy_of (doe : Z) : Z :=
  let yoe := yoe_of doe in doe - (365 * yoe + yoe / 4 - yoe / 100).
Definition mp_of (doy : Z) : Z := (5 * doy + 2) / 153.
Definition day_of (doy : Z) : Z := doy - (153 * mp_of doy + 2) / 5 + 1.
Definition month_of (mp : Z) : Z := if mp <? 10 then mp + 3 else mp - 9.

Definition civil (days : Z) : Z * Z * Z :=
  let doe := doe_of days in
  let doy := doy_of doe in
  let m := month_of (mp_of doy) in
  let y := yoe_of doe + era_of days * 400 in
  ((if m <=? 2 then y + 1 else y), m, day_of doy).

(** The fields of a time stamp in seconds since the epoch, in UTC. *)
Definition utc_fields (ts : Z) : fields :=
  let '(y, m, d) := civil (ts / 86400) in
  let s := ts mod 86400 in
  mk_fields y m d (s / 3600) (s mod 3600 / 60) (s mod 60).

Definition pad2 (n : Z) : string :=
  String (digit_char (n / 10)) (String (digit_char (n mod 10)) "").

Definition pad4 (n : Z) : string :=
  String (digit_char (n / 1000))
    (String (digit_char (n / 100 mod 10))
       (String (digit_char (n / 10 mod 10)) (String (digit_char (n mod 10)) ""))).

Definition year_str (y : Z) : string :=
  if (0 <=? y) && (y <? 10000) then pad4 y else of_Z y.

(** [strftime]: the directives [%Y %m %d %H %M %S %%]; any other character
    stands for itself. *)
Fixpoint strftime_chars (f : fields) (fmt : list ascii) : string :=
  match fmt with
  | [] => ""
  | "%"%char :: "Y"%char :: rest => year_str (year f) ++ strftime_chars f rest
  | "%"%char :: "m"%char :: rest => pad2 (month f) ++ strftime_chars f rest
  | "%"%char :: "d"%char :: rest => pad2 (day f) ++ strftime_chars f rest
  | "%"%char :: "H"%char :: rest => pad2 (hour f) ++ strftime_chars f rest
  | "%"%char :: "M"%char :: rest => pad2 (minute f) ++ strftime_chars f rest
  | "%"%char :: "S"%char :: rest => pad2 (second f) ++ strftime_chars f rest
  | "%"%char :: "%"%char :: rest => String "%" (strftime_chars f rest)
  | c :: rest => String c (strftime_chars f rest)
  end.

(** Modelled from the spec: [strf_time] of [snapchat_dlp.utils], which is not
    among the sources at hand.  The spec derives the date directory
    ([<YYYY-MM-DD>]) and the file name's [date_time] from the item's
    [timestampSeconds], seconds since the epoch; the source calls it with a
    [strftime] format.  It is taken here as [strftime] over the UTC fields of
    the time stamp. *)
Definition strf_time (timestamp : Z) (format_str : string) : string :=
  strftime_chars (utc_fields timestamp) (chars format_str).

End Calendar.

(* ================================================================= *)
(** ** The world the program runs in *)

(** What [requests.get] returns. *)
Record response : Type := mk_response { status_code : Z; text : string }.

Inductive log_level : Type := ERROR | INFO.

(** What the program does to the outside, in the order it does it. *)
Inductive event : Type :=
| EvGet (url user_agent : string)
| EvFindall (pattern body : string)
| EvLoads (s : string)
| EvLog (level : log_level) (message : string)
| EvMakedirs (path : string)
| EvDump (content : value) (path : string)
| EvExecutor (max_workers : Z)
| EvSubmit (media_url : value) (media_output : string) (sleep_interval : Z)
| EvShutdown.

(** [network] answers a GET (no answer: the transport failed); [store] holds
    the objects the program names by reference, a reference being an index;
    [clock] is the wall clock; [trace] the events so far, oldest first. *)
Record World : Type := mk_World {
  network : string -> string -> option response;
  store : list value;
  clock : Z;
  trace : list event
}.

Definition with_trace (w : World) (t : list event) : World :=
  mk_World (network w) (store w) (clock w) t.

Definition with_store (w : World) (s : list value) : World :=
  mk_World (network w) s (clock w) (trace w).

Definition M (A : Type) : Type := World -> outcome A * World.

Definition ret {A} (a : A) : M A := fun w => (Ret a, w).

Definition bind {A B} (m : M A) (k : A -> M B) : M B :=
  fun w =>
    match m w with
    | (Ret a, w') => k a w'
    | (Raise e, w') => (Raise e, w')
    end.

Definition lift {A} (o : outcome A) : M A := fun w => (o, w).

(** [raise C] *)
Definition raise_ {A} (c : exc_class) : M A := lift (Py.raise c "").

Definition emit (e : event) : M unit :=
  fun w => (Ret tt, with_trace w (trace w ++ [e])%list).

Declare Scope outcome_scope.
Delimit Scope outcome_scope with outcome.
Declare Scope monad_scope.
Delimit Scope monad_scope with monad.
Bind Scope monad_scope with M.
Bind Scope outcome_scope with outcome.

Notation "x <- c1 ;; c2" := (obind c1 (fun x => c2))
  (at level 61, c1 at next level, right associativity) : outcome_scope.
Notation "x <- c1 ;; c2" := (bind c1 (fun x => c2))
  (at level 61, c1 at next level, right associativity) : monad_scope.
Notation "' pat <- c1 ;; c2" := (bind c1 (fun pat => c2))
  (at level 61, pat pattern, c1 at next level, right associativity) : monad_scope.
Notation "c1 ;; c2" := (bind c1 (fun _ => c2))
  (at level 61, right associativity) : monad_scope.

(** The references of the store. *)
Definition ref : Type := nat.

Definition deref (r : ref) : M value := fun w => (Ret (nth r (store w) VNone), w).

Definition alloc (v : value) : M ref :=
  fun w => (Ret (List.length (store w)), with_store w (store w ++ [v])%list).

Fixpoint list_set {A} (l : list A) (i : nat) (a : A) : list A :=
  match l, i with
  | [], _ => []
  | _ :: rest, O => a :: rest
  | x :: rest, S j => x :: list_set rest j a
  end.

Definition assign (r : ref) (v : value) : M unit :=
  fun w => (Ret tt, with_store w (list_set (store w) r v)).

(** [logger.error], [logger.info] *)
Definition logger_error (message : string) : M unit := emit (EvLog ERROR message).
Definition logger_info (message : string) : M unit := emit (EvLog INFO message).

(** [requests.get(url, headers={"User-Agent": ua})] *)
Definition requests_get (url ua : string) : M response :=
  (emit (EvGet url ua) ;;
   fun w =>
     match network w url ua with
     | Some r => (Ret r, w)
     | None => (Raise (mk_exn RequestException ""), w)
     end)%monad.

Definition requests_codes_ok : Z := 200.

(** [os.makedirs(path, exist_ok=True)]; the file system is taken to let the
    directory be made. *)
Definition os_makedirs (path : string) : M unit := emit (EvMakedirs path).

(** Modelled from the spec: [dump_response] of [snapchat_dlp.utils], which is
    not among the sources at hand.  By the spec it persists the item's raw
    metadata as a sidecar file next to the media output; it is taken to write
    the content its first argument refers to at the path and to change no
    object. *)
Definition dump_response (content : ref) (path : string) : M unit :=
  (v <- deref content ;; emit (EvDump v path))%monad.

(** [concurrent.futures.ThreadPoolExecutor(max_workers=n)] *)
Definition ThreadPoolExecutor (max_workers : Z) : M unit :=
  if max_workers <=? 0
  then lift (Py.raise ValueError "max_workers must be greater than 0")
  else emit (EvExecutor max_workers).

(** [executor.submit(download_url, media_url, media_output, sleep_interval)] *)
Definition executor_submit (media_url : value) (media_output : string)
  (sleep_interval : Z) : M unit :=
  emit (EvSubmit media_url media_output sleep_interval).

(** [executor.shutdown(wait=False)] *)
Definition executor_shutdown : M unit := emit EvShutdown.

(** [for x in items: body(x)] *)
Fixpoint for_each {A} (items : list A) (body : A -> M unit) : M unit :=
  match items with
  | [] => ret tt
  | x :: rest => (body x ;; for_each rest body)%monad
  end.

(* ================================================================= *)
(** ** The class [SnapchatDL] *)

Record SnapchatDL : Type := mk_SnapchatDL {
  directory_prefix : string;
  max_workers : Z;
  limit_story : Z;
  sleep_interval : Z;
  quiet : bool;
  dump_json : bool;
  endpoint_web : string;
  regexp_web_json : string
}.

Definition the_endpoint_web : string := "https://story.snapchat.com/@{}".

Definition the_regexp_web_json : string :=
  "<script\s*id=" ++ Text.dq ++ "__NEXT_DATA__" ++ Text.dq ++ "\s*type=" ++ Text.dq
    ++ "application\/json" ++ Text.dq ++ ">([^<]+)<\/script>".

Definition user_agent : string :=
  "Mozilla/5.0 (Windows NT 10.0; Win64; x64) "
    ++ "AppleWebKit/537.36 (KHTML, like Gecko) "
    ++ "Chrome/58.0.3029.110 Safari/537.3".

(** [__init__]; [abs_prefix] stands for
    [os.path.abspath(os.path.normpath(directory_prefix))], the absolute path
    of the output root. *)
Definition init (abs_prefix : string) (max_workers limit_story sleep_interval : Z)
  (quiet dump_json : bool) : SnapchatDL :=
  mk_SnapchatDL abs_prefix max_workers limit_story sleep_interval quiet dump_json
    the_endpoint_web the_regexp_web_json.

(* ================================================================= *)
(** ** An environment to run the program in *)

(** Concrete choices for what the program takes from outside: they let the
    definitions above be evaluated on a response. *)
Module Env.

Import Text.

(** Every class of [snapchat_dlp.utils] derives from [Exception] directly:
    the error kinds are separate ones. *)
Definition flat_base (c : exc_class) : exc_class := Exception.

(** Two media kinds, 0 an image and 1 a video. *)
Definition media_types : value := VList [VStr "jpg"; VStr "mp4"].

Fixpoint strip_prefix (p cs : list ascii) : option (list ascii) :=
  match p, cs with
  | [], _ => Some cs
  | a :: p', c :: cs' => if Ascii.eqb a c then strip_prefix p' cs' else None
  | _ :: _, [] => None
  end.

Fixpoint skip_space (cs : list ascii) : list ascii :=
  match cs with
  | c :: rest => if is_space c then skip_space rest else cs
  | [] => []
  end.

(** The longest run of characters other than [<]. *)
Fixpoint take_text (cs : list ascii) : list ascii * list ascii :=
  match cs with
  | c :: rest =>
      if Ascii.eqb c "<"%char then ([], cs)
      else let '(t, r) := take_text rest in (c :: t, r)
  | [] => ([], [])
  end.

Definition opt_bind {A B} (o : option A) (k : A -> option B) : option B :=
  match o with
  | Some a => k a
  | None => None
  end.

(** One match of [the_regexp_web_json] at the head of the text: the group
    and what follows the match.  The pattern never needs to back up: a
    character that ends a run of [\s*] or of [[^<]+] cannot start the literal
    that follows it. *)
Definition match_here (cs : list ascii) : option (list ascii * list ascii) :=
  opt_bind (strip_prefix (chars "<script") cs) (fun r1 =>
  opt_bind (strip_prefix (chars ("id=" ++ dq ++ "__NEXT_DATA__" ++ dq)) (skip_space r1)) (fun r2 =>
  opt_bind (strip_prefix (chars ("type=" ++ dq ++ "application/json" ++ dq ++ ">")) (skip_space r2))
    (fun r3 =>
  let '(group, r4) := take_text r3 in
  match group with
  | [] => None
  | _ :: _ => opt_bind (strip_prefix (chars "</script>") r4) (fun r5 => Some (group, r5))
  end))).

Fixpoint scan (fuel : nat) (cs : list ascii) : list string :=
  match fuel with
  | O => []
  | S fuel' =>
      match match_here cs with
      | Some (group, rest) => of_chars group :: scan fuel' rest
      | None =>
          match cs with
          | [] => []
          | _ :: rest => scan fuel' rest
          end
      end
  end.

(** [re.findall] for the pattern of the program: the groups of the matches,
    left to right, without overlap. *)
Definition findall (pattern body : string) : list string :=
  scan (S (String.length body)) (chars body).

(** A decoder for JSON without fractions, exponents and [\u] escapes. *)
Fixpoint skip_ws (cs : list ascii) : list ascii :=
  match cs with
  | c :: rest =>
      if (code c =? 32) || (code c =? 9) || (code c =? 10) || (code c =? 13)
      then skip_ws rest else cs
  | [] => []
  end.

Fixpoint take_digits (cs : list ascii) (acc : Z) : Z * list ascii :=
  match cs with
  | c :: rest => if is_digit c then take_digits rest (10 * acc + digit_val c) else (acc, cs)
  | [] => (acc, [])
  end.

Definition ends_number (cs : list ascii) : bool :=
  match cs with
  | c :: _ => negb (Ascii.eqb c "."%char || Ascii.eqb c "e"%char || Ascii.eqb c "E"%char)
  | [] => true
  end.

(** What the decoder raises.  A text that is not JSON gives a
    [JSONDecodeError], whose text is one fixed text here; an array or an
    object opened when no nesting room is left gives a [RecursionError], with
    the text of CPython's scanner; an integer of more digits than [int]
    converts gives the [ValueError] of [int]. *)
Definition not_json {A : Type} : outcome A :=
  Raise (mk_exn JSONDecodeError "Expecting value").

Definition too_deep {A : Type} (what : string) : outcome A :=
  Raise (mk_exn RecursionError
           ("maximum recursion depth exceeded while decoding a JSON " ++ what
              ++ " from a unicode string")).

Definition expect {A : Type} (o : option A) : outcome A :=
  match o with
  | Some a => Ret a
  | None => not_json
  end.

Definition decode_nat (cs : list ascii) : outcome (Z * list ascii) :=
  match cs with
  | "0"%char :: rest => if ends_number rest then Ret (0, rest) else not_json
  | c :: _ =>
      if is_digit c then
        let '(n, rest) := take_digits cs 0 in
        let digits := Z.of_nat (List.length cs - List.length rest) in
        if ends_number rest then
          if Py.max_str_digits <? digits then Py.too_many_digits digits
          else Ret (n, rest)
        else not_json
      else not_json
  | [] => not_json
  end.

Fixpoint decode_string (cs : list ascii) : option (string * list ascii) :=
  match cs with
  | [] => None
  | c :: rest =>
      if Ascii.eqb c dquote then Some ("", rest)
      else if Ascii.eqb c backslash then
        match rest with
        | e :: rest' =>
            let put (d : ascii) :=
              opt_bind (decode_string rest') (fun '(s, r) => Some (String d s, r)) in
            if Ascii.eqb e dquote then put dquote
            else if Ascii.eqb e backslash then put backslash
            else if Ascii.eqb e "/"%char then put "/"%char
            else if Ascii.eqb e "b"%char then put "008"%char
            else if Ascii.eqb e "f"%char then put "012"%char
            else if Ascii.eqb e "n"%char then put "010"%char
            else if Ascii.eqb e "r"%char then put "013"%char
            else if Ascii.eqb e "t"%char then put "009"%char
            else None
        | [] => None
        end
      else if code c <? 32 then None
      else opt_bind (decode_string rest) (fun '(s, r) => Some (String c s, r))
  end.

(** The scanner enters one more level of recursion for every array and every
    object it opens, before it looks at what is inside; [room] is the number
    of levels left. *)
Fixpoint decode_value (fuel room : nat) (cs : list ascii) {struct fuel}
  : outcome (value * list ascii) :=
  match fuel with
  | O => not_json
  | S f =>
      match skip_ws cs with
      | "n"%char :: "u"%char :: "l"%char :: "l"%char :: r => Ret (VNone, r)
      | "t"%char :: "r"%char :: "u"%char :: "e"%char :: r => Ret (VBool true, r)
      | "f"%char :: "a"%char :: "l"%char :: "s"%char :: "e"%char :: r => Ret (VBool false, r)
      | "["%char :: r =>
          match room with
          | O => too_deep "array"
          | S room' =>
              match skip_ws r with
              | "]"%char :: r' => Ret (VList [], r')
              | r1 => obind (decode_items f room' r1) (fun '(l, r') => Ret (VList l, r'))
              end
          end
      | "{"%char :: r =>
          match room with
          | O => too_deep "object"
          | S room' =>
              match skip_ws r with
              | "}"%char :: r' => Ret (VDict [], r')
              | r1 => obind (decode_members f room' r1 []) (fun '(d, r') => Ret (VDict d, r'))
              end
          end
      | "-"%char :: r => obind (decode_nat r) (fun '(n, r') => Ret (VInt (- n), r'))
      | c :: r =>
          if Ascii.eqb c dquote
          then obind (expect (decode_string r)) (fun '(s, r') => Ret (VStr s, r'))
          else obind (decode_nat (c :: r)) (fun '(n, r') => Ret (VInt n, r'))
      | [] => not_json
      end
  end
with decode_items (fuel room : nat) (cs : list ascii) {struct fuel}
  : outcome (list value * list ascii) :=
  match fuel with
  | O => not_json
  | S f =>
      obind (decode_value f room cs) (fun '(v, r) =>
        match skip_ws r with
        | ","%char :: r' => obind (decode_items f room r') (fun '(l, r2) => Ret (v :: l, r2))
        | "]"%char :: r' => Ret ([v], r')
        | _ => not_json
        end)
  end
with decode_members (fuel room : nat) (cs : list ascii) (acc : list (string * value))
  {struct fuel} : outcome (list (string * value) * list ascii) :=
  match fuel with
  | O => not_json
  | S f =>
      match skip_ws cs with
      | c :: r =>
          if Ascii.eqb c dquote then
            obind (expect (decode_string r)) (fun '(k, r1) =>
              match skip_ws r1 with
              | ":"%char :: r2 =>
                  obind (decode_value f room r2) (fun '(v, r3) =>
                    let acc' := Py.dict_set acc k v in
                    match skip_ws r3 with
                    | ","%char :: r4 => decode_members f room r4 acc'
                    | "}"%char :: r4 => Ret (acc', r4)
                    | _ => not_json
                    end)
              | _ => not_json
              end)
          else not_json
      | [] => not_json
      end
  end.

(** The nesting room of a call: the default of [sys.getrecursionlimit()].
    The frames that are on the stack when [download] calls the decoder take
    a few levels of it, so Python is out of room a little earlier (at about
    990 levels in CPython 3.11); a text this decoder is out of room for is
    one Python is out of room for. *)
Definition nesting_room : nat := 1000.

(** [json.loads] on that fragment. *)
Definition loads (s : string) : outcome value :=
  match decode_value (2 * String.length s + 3) nesting_room (chars s) with
  | Ret (v, rest) =>
      match skip_ws rest with
      | [] => Ret v
      | _ :: _ => Raise (mk_exn JSONDecodeError "Extra data")
      end
  | Raise e => Raise e
  end.

(** A page with the embedded payload [payload]. *)
Definition page (payload : string) : string :=
  "<html><head><script id=" ++ dq ++ "__NEXT_DATA__" ++ dq ++ " type=" ++ dq
    ++ "application/json" ++ dq ++ ">" ++ payload ++ "</script></head></html>".

(** A server that answers every request the same way. *)
Definition serving (r : response) : World :=
  mk_World (fun _ _ => Some r) [] 0 [].

(** JSON text from pieces, [q s] being [s] in double quotes. *)
Definition q (s : string) : string := dq ++ s ++ dq.

(** A user profile, a story item and a payload, as JSON text. *)
Definition profile_json : string :=
  "{" ++ q "$case" ++ ":" ++ q "publicProfileInfo" ++ "," ++ q "publicProfileInfo"
    ++ ":{" ++ q "username" ++ ":" ++ q "alice" ++ "}}".

Definition story_json (id ts kind : string) : string :=
  "{" ++ q "snapId" ++ ":{" ++ q "value" ++ ":" ++ q id ++ "},"
    ++ q "snapUrls" ++ ":{" ++ q "mediaUrl" ++ ":" ++ q ("https://cf.sc-cdn.net/" ++ id) ++ "},"
    ++ q "snapMediaType" ++ ":" ++ kind ++ ","
    ++ q "timestampInSec" ++ ":{" ++ q "value" ++ ":" ++ q ts ++ "}}".

Definition payload_json (page_props : string) : string :=
  "{" ++ q "props" ++ ":{" ++ q "pageProps" ++ ":{" ++ page_props ++ "}}}".

Definition payload_with_stories (stories : string) : string :=
  payload_json (q "userProfile" ++ ":" ++ profile_json ++ ","
                  ++ q "story" ++ ":{" ++ q "snapList" ++ ":[" ++ stories ++ "]}").

(** The same as values. *)
Definition profile_info : value := VDict [("username", VStr "alice")].

Definition story (id ts : string) (kind : Z) : value :=
  VDict [("snapId", VDict [("value", VStr id)]);
         ("snapUrls", VDict [("mediaUrl", VStr ("https://cf.sc-cdn.net/" ++ id))]);
         ("snapMediaType", VInt kind);
         ("timestampInSec", VDict [("value", VStr ts)])].

(** A world whose store holds the given objects. *)
Definition holding (objects : list value) : World :=
  mk_World (fun _ _ => None) objects 0 [].

(** The URL of the story page of a user. *)
Definition story_url (username : string) : string :=
  "https://story.snapchat.com/@" ++ username.

End Env.

(* ================================================================= *)
(** ** The program *)

Section Program.

(** What the program takes from outside its own source: the base class that
    [snapchat_dlp.utils] declares for each of its exception classes, the
    functions [re.findall] and [json.loads], and the table [MEDIA_TYPE] of
    [snapchat_dlp.utils], a list or a dict.  [json.loads] returns the decoded
    value or raises: a [JSONDecodeError] for a text that is not JSON, a
    plain [ValueError] for an integer of more digits than [int] converts,
    and a [RecursionError] for a text nested deeper than the interpreter's
    stack allows (the decoder recurses once per open bracket). *)
Variable utils_base : exc_class -> exc_class.
Variable re_findall : string -> string -> list string.
Variable json_loads : string -> outcome value.
Variable MEDIA_TYPE : value.

(** The direct base of a class. *)
Definition base (c : exc_class) : exc_class :=
  match c with
  | BaseException => BaseException
  | Exception | KeyboardInterrupt => BaseException
  | LookupError | ValueError | TypeError | OSError | RuntimeError => Exception
  | IndexError | KeyError => LookupError
  | JSONDecodeError => ValueError
  | RecursionError => RuntimeError
  | RequestException => OSError
  | APIResponseError | UserNotFoundError | NoStoriesFound => utils_base c
  end.

Fixpoint issubclass_upto (n : nat) (c d : exc_class) : bool :=
  exc_class_eqb c d ||
  match n with
  | O => false
  | S n' =>
      match c with
      | BaseException => false
      | _ => issubclass_upto n' (base c) d
      end
  end.

Definition issubclass (c d : exc_class) : bool := issubclass_upto 16 c d.

(** Does [except (classes)] take the exception? *)
Definition handles (classes : list exc_class) (e : exn) : bool :=
  existsb (issubclass (exn_class e)) classes.

(** [try: body  except (classes) as e: handler(e)] *)
Definition try_except {A} (body : M A) (classes : list exc_class)
  (handler : exn -> M A) : M A :=
  fun w =>
    match body w with
    | (Raise e, w') => if handles classes e then handler e w' else (Raise e, w')
    | r => r
    end.

Definition re_findall_ (pattern body : string) : M (list string) :=
  (emit (EvFindall pattern body) ;; ret (re_findall pattern body))%monad.

Definition json_loads_ (s : string) : M value :=
  (emit (EvLoads s) ;; lift (json_loads s))%monad.

(** [x[k]] for a literal key. *)
Definition sub (x : value) (k : string) : outcome value := Py.getitem x (VStr k).

Definition _api_response (self : SnapchatDL) (username : string) : M response :=
  (web_url <- lift (Py.format (endpoint_web self) [username]) ;;
   requests_get web_url user_agent)%monad.

Definition util_web_user_info (content : value) : outcome value :=
  (props <- sub content "props" ;;
   page_props <- sub props "pageProps" ;;
   present <- Py.contains_str "userProfile" page_props ;;
   if present then
     props <- sub content "props" ;;
     page_props <- sub props "pageProps" ;;
     user_profile <- sub page_props "userProfile" ;;
     field_id <- sub user_profile "$case" ;;
     Py.getitem user_profile field_id
   else Py.raise UserNotFoundError "")%outcome.

Definition util_web_story (content : value) : outcome value :=
  (props <- sub content "props" ;;
   page_props <- sub props "pageProps" ;;
   present <- Py.contains_str "story" page_props ;;
   if present then
     props <- sub content "props" ;;
     page_props <- sub props "pageProps" ;;
     story <- sub page_props "story" ;;
     sub story "snapList"
   else Ret (VList []))%outcome.

(** [response_json_raw[0]] *)
Definition first_match (response_json_raw : list string) : outcome string :=
  match response_json_raw with
  | s :: _ => Ret s
  | [] => Py.raise IndexError "list index out of range"
  end.

Definition _web_fetch_story (self : SnapchatDL) (username : string)
  : M (value * value) :=
  (response <- _api_response self username ;;
   (if negb (status_code response =? requests_codes_ok) then
      (if status_code response =? 404 then
         logger_error ("User '" ++ username ++ "' not found (404).")
       else
         logger_error ("Failed to fetch data for '" ++ username
                         ++ "'. Status code: " ++ Text.of_Z (status_code response) ++ ".")) ;;
      raise_ APIResponseError
    else ret tt) ;;
   response_json_raw <- re_findall_ (regexp_web_json self) (text response) ;;
   try_except
     (raw <- lift (first_match response_json_raw) ;;
      response_json <- json_loads_ raw ;;
      user_info <- lift (util_web_user_info response_json) ;;
      stories <- lift (util_web_story response_json) ;;
      ret (stories, user_info))
     [IndexError; KeyError; ValueError]
     (fun e =>
        logger_error ("Error parsing response for '" ++ username ++ "': " ++ exn_str e) ;;
        raise_ APIResponseError))%monad.

(** [media[k]] through the reference [media]. *)
Definition media_sub (media : ref) (k : string) : M value :=
  (m <- deref media ;; lift (sub m k))%monad.

(** [dict(media)]: a new dict with the entries of the one [media] refers to.
    (Anything but a dict has raised at the first subscript of
    [_download_media].) *)
Definition dict_copy (media : ref) : M ref :=
  (m <- deref media ;;
   match m with
   | VDict d => alloc (VDict d)
   | _ => lift (Py.raise TypeError ("cannot convert '" ++ Py.type_name m ++ "' object to dict"))
   end)%monad.

(** [target[k] = v] through the reference [target]. *)
Definition setitem (target : ref) (k : string) (v : value) : M unit :=
  (m <- deref target ;;
   match m with
   | VDict d => assign target (VDict (Py.dict_set d k v))
   | _ =>
       lift (Py.raise TypeError
               ("'" ++ Py.type_name m ++ "' object does not support item assignment"))
   end)%monad.

Definition _download_media (self : SnapchatDL) (media : ref) (username : string)
  (snap_user : value) : M (value * string) :=
  (snap_id_obj <- media_sub media "snapId" ;;
   snap_id <- lift (sub snap_id_obj "value") ;;
   snap_urls <- media_sub media "snapUrls" ;;
   media_url <- lift (sub snap_urls "mediaUrl") ;;
   media_type <- media_sub media "snapMediaType" ;;
   timestamp_obj <- media_sub media "timestampInSec" ;;
   timestamp_value <- lift (sub timestamp_obj "value") ;;
   timestamp <- lift (Py.int timestamp_value) ;;
   let date_str := Calendar.strf_time timestamp "%Y-%m-%d" in
   let dir_name := Path.join (directory_prefix self) [username; date_str] in
   os_makedirs dir_name ;;
   let template := Calendar.strf_time timestamp "%Y-%m-%d_%H-%M-%S {} {}.{}" in
   extension <- lift (Py.getitem MEDIA_TYPE media_type) ;;
   filename <- lift (Py.format template [Py.str snap_id; username; Py.str extension]) ;;
   (if dump_json self then
      let filename_json := Path.join dir_name [filename ++ ".json"] in
      media_json <- dict_copy media ;;
      setitem media_json "snapUser" snap_user ;;
      dump_response media_json filename_json
    else ret tt) ;;
   let media_output := Path.join dir_name [filename] in
   ret (media_url, media_output))%monad.

(** The loop of [download]: the loop variable refers to the item object. *)
Definition submit_story (self : SnapchatDL) (username : string) (snap_user : value)
  (item : value) : M unit :=
  (media <- alloc item ;;
   '(media_url, media_output) <- _download_media self media username snap_user ;;
   executor_submit media_url media_output (sleep_interval self))%monad.

Definition download (self : SnapchatDL) (username : string) : M unit :=
  (fetched <-
     try_except
       (r <- _web_fetch_story self username ;; ret (Some r))
       [APIResponseError]
       (fun _ =>
          logger_error ("Could not fetch data for '" ++ username
                          ++ "'. The user may not exist or has no public stories.") ;;
          ret None) ;;
   match fetched with
   | None => ret tt
   | Some (stories, snap_user) =>
       if negb (Py.truth stories) then
         (if negb (quiet self) then logger_info (username ++ " has no stories.")
          else ret tt)
       else
         n <- lift (Py.len stories) ;;
         logger_info ("[+] " ++ username ++ " has " ++ Text.of_Z n ++ " stories.") ;;
         ThreadPoolExecutor (max_workers self) ;;
         try_except
           (items <- lift (Py.iter stories) ;;
            for_each items (submit_story self username snap_user))
           [KeyboardInterrupt]
           (fun _ => executor_shutdown) ;;
         n <- lift (Py.len stories) ;;
         logger_info ("[âœ”] " ++ Text.of_Z n ++ " stories downloaded for " ++ username ++ ".")
   end)%monad.

(* ----------------------------------------------------------------- *)
(** *** Reading a run *)

(** The world after some more events. *)
Definition after (w : World) (evs : list event) : World :=
  with_trace w (trace w ++ evs)%list.

(** The download tasks a trace schedules, and its calls into the Extractor
    (the pattern search and the decoding). *)
Definition submitted (t : list event) : list (value * string * Z) :=
  flat_map (fun e => match e with
                     | EvSubmit u p d => [(u, p, d)]
                     | _ => []
                     end) t.

Definition extractor_calls (t : list event) : list event :=
  filter (fun e => match e with
                   | EvFindall _ _ | EvLoads _ => true
                   | _ => false
                   end) t.

(** The page properties of a decoded payload. *)
Definition page_props (content : value) : outcome value :=
  (props <- sub content "props" ;; sub props "pageProps")%outcome.

(** The story item of the data model, as the Namer reads it off an item of
    the snap list: well formed when the four fields are there, the id is a
    string and the time stamp counts the seconds of a day from 1970 to
    9999. *)
Record StoryItem : Type := mk_StoryItem {
  id : string;
  mediaUrl : value;
  mediaType : value;
  timestampSeconds : Z
}.

Definition story_item (media : value) : option StoryItem :=
  match (o <- sub media "snapId" ;; sub o "value")%outcome,
        (o <- sub media "snapUrls" ;; sub o "mediaUrl")%outcome,
        sub media "snapMediaType",
        (o <- sub media "timestampInSec" ;; v <- sub o "value" ;; Py.int v)%outcome
  with
  | Ret (VStr i), Ret u, Ret k, Ret ts =>
      if (0 <=? ts) && (ts <? 253402300800) then Some (mk_StoryItem i u k ts) else None
  | _, _, _, _ => None
  end.

(** The extension the table holds for a media kind, when it holds one. *)
Definition extension_of (kind : value) : option string :=
  match Py.getitem MEDIA_TYPE kind with
  | Ret (VStr e) => Some e
  | _ => None
  end.

(** A path component that [os.path.join] appends after a separator: not
    empty, no separator at either end. *)
Definition plain_component (s : string) : bool :=
  negb (String.eqb s "") && negb (Text.startswith s "/") && negb (Text.endswith_char s "/").

(** An output root that [os.path.join] appends a separator to. *)
Definition plain_root (s : string) : bool :=
  negb (String.eqb s "") && negb (Text.endswith_char s "/").

(** The output path as the specification words it, underscores between the
    formatted time stamp, the id and the user name. *)
Definition spec_output_path (root username : string) (it : StoryItem) (ext : string)
  : string :=
  root ++ "/" ++ username ++ "/" ++ Calendar.strf_time (timestampSeconds it) "%Y-%m-%d"
    ++ "/" ++ Calendar.strf_time (timestampSeconds it) "%Y-%m-%d_%H-%M-%S"
    ++ "_" ++ id it ++ "_" ++ username ++ "." ++ ext.

(** The output path as the source builds it: single spaces there. *)
Definition output_path (root username : string) (it : StoryItem) (ext : string)
  : string :=
  root ++ "/" ++ username ++ "/" ++ Calendar.strf_time (timestampSeconds it) "%Y-%m-%d"
    ++ "/" ++ Calendar.strf_time (timestampSeconds it) "%Y-%m-%d_%H-%M-%S"
    ++ " " ++ id it ++ " " ++ username ++ "." ++ ext.

(** What the Namer returns for an item: the reads of [_download_media], in
    its order, without its effects. *)
Definition name_item (root : string) (item : value) (username : string)
  : outcome (value * string) :=
  (snap_id_obj <- sub item "snapId" ;;
   snap_id <- sub snap_id_obj "value" ;;
   snap_urls <- sub item "snapUrls" ;;
   media_url <- sub snap_urls "mediaUrl" ;;
   media_type <- sub item "snapMediaType" ;;
   timestamp_obj <- sub item "timestampInSec" ;;
   timestamp_value <- sub timestamp_obj "value" ;;
   timestamp <- Py.int timestamp_value ;;
   let date_str := Calendar.strf_time timestamp "%Y-%m-%d" in
   let dir_name := Path.join root [username; date_str] in
   let template := Calendar.strf_time timestamp "%Y-%m-%d_%H-%M-%S {} {}.{}" in
   extension <- Py.getitem MEDIA_TYPE media_type ;;
   filename <- Py.format template [Py.str snap_id; username; Py.str extension] ;;
   Ret (media_url, Path.join dir_name [filename]))%outcome.

(** The fields of a time stamp from 1970 to 9999. *)
Definition in_range (f : Calendar.fields) : Prop :=
  1970 <= Calendar.year f <= 9999 /\ 1 <= Calendar.month f <= 12 /\
  1 <= Calendar.day f <= 31 /\ 0 <= Calendar.hour f <= 23 /\
  0 <= Calendar.minute f <= 59 /\ 0 <= Calendar.second f <= 59.

(** The characters of a formatted date and time: digits, [-] and [_]. *)
Definition stamp_char (c : ascii) : bool :=
  Text.is_digit c || Ascii.eqb c "-" || Ascii.eqb c "_".

Fixpoint all_of (p : ascii -> bool) (s : string) : bool :=
  match s with
  | EmptyString => true
  | String c rest => p c && all_of p rest
  end.

Definition date_str (f : Calendar.fields) : string :=
  Calendar.pad4 (Calendar.year f) ++ "-" ++ Calendar.pad2 (Calendar.month f) ++ "-"
    ++ Calendar.pad2 (Calendar.day f).

Definition stamp_str (f : Calendar.fields) : string :=
  date_str f ++ "_" ++ Calendar.pad2 (Calendar.hour f) ++ "-"
    ++ Calendar.pad2 (Calendar.minute f) ++ "-" ++ Calendar.pad2 (Calendar.second f).

(** What [os.path.join] puts between the directory of the user and the
    date. *)
Definition dir_prefix (root username : string) : string :=
  let p := Path.join2 root username in
  if String.eqb p "" || Text.endswith_char p "/" then p else p ++ "/".

(** The file name of a well-formed item of a recognised kind. *)
Definition file_name (username : string) (it : StoryItem) (ext : string) : string :=
  stamp_str (Calendar.utc_fields (timestampSeconds it))
    ++ " " ++ id it ++ " " ++ username ++ "." ++ ext.

(** The download task of a well-formed item of a recognised kind. *)
Definition task_of (self : SnapchatDL) (username : string) (info : StoryItem * string)
  : value * string * Z :=
  let '(it, ext) := info in
  (mediaUrl it,
   Path.join
     (Path.join (directory_prefix self)
        [username; date_str (Calendar.utc_fields (timestampSeconds it))])
     [file_name username it ext],
   sleep_interval self).

(** An item of the snap list that is well formed, of a recognised kind. *)
Definition names (item : value) (info : StoryItem * string) : Prop :=
  story_item item = Some (fst info) /\ extension_of (mediaType (fst info)) = Some (snd info).

(** What the two readers return, in the source's order: the user first. *)
Definition read_payload (content : value) : outcome (value * value) :=
  (user_info <- util_web_user_info content ;;
   stories <- util_web_story content ;;
   Ret (stories, user_info))%outcome.

(** [self] with another story limit. *)
Definition with_limit_story (self : SnapchatDL) (l : Z) : SnapchatDL :=
  mk_SnapchatDL (directory_prefix self) (max_workers self) l (sleep_interval self)
    (quiet self) (dump_json self) (endpoint_web self) (regexp_web_json self).

(* ================================================================= *)
(** ** Properties: the monad *)

Lemma after_after (w : World) (a b : list event) :
  after (after w a) b = after w (a ++ b).
Proof.
  unfold after, with_trace. simpl. now rewrite <- app_assoc.
Qed.

Lemma network_after (w : World) (evs : list event) : network (after w evs) = network w.
Proof. reflexivity. Qed.

Lemma store_after (w : World) (evs : list event) : store (after w evs) = store w.
Proof. reflexivity. Qed.

Lemma trace_after (w : World) (evs : list event) :
  trace (after w evs) = (trace w ++ evs)%list.
Proof. reflexivity. Qed.

Lemma bind_ret {A B} (a : A) (k : A -> M B) (w : World) : bind (ret a) k w = k a w.
Proof. reflexivity. Qed.

Lemma bind_lift_Ret {A B} (a : A) (k : A -> M B) (w : World) :
  bind (lift (Ret a)) k w = k a w.
Proof. reflexivity. Qed.

Lemma bind_lift_Raise {A B} (e : exn) (k : A -> M B) (w : World) :
  bind (lift (Raise e)) k w = (Raise e, w).
Proof. reflexivity. Qed.

Lemma bind_emit {B} (e : event) (k : unit -> M B) (w : World) :
  bind (emit e) k w = k tt (after w [e]).
Proof. reflexivity. Qed.

Lemma bind_bind {A B C} (m : M A) (f : A -> M B) (g : B -> M C) (w : World) :
  bind (bind m f) g w = bind m (fun a => bind (f a) g) w.
Proof.
  unfold bind. destruct (m w) as [[a | e] w']; [|reflexivity].
  destruct (f a w') as [[b | e] w'']; reflexivity.
Qed.

Lemma bind_Ret_at {A B} (m : M A) (k : A -> M B) (w w' : World) (a : A) :
  m w = (Ret a, w') -> bind m k w = k a w'.
Proof. intros H. unfold bind. now rewrite H. Qed.

Lemma bind_Raise_at {A B} (m : M A) (k : A -> M B) (w w' : World) (e : exn) :
  m w = (Raise e, w') -> bind m k w = (Raise e, w').
Proof. intros H. unfold bind. now rewrite H. Qed.

Lemma try_except_Ret_at {A} (body : M A) (classes : list exc_class)
  (handler : exn -> M A) (w w' : World) (a : A) :
  body w = (Ret a, w') -> try_except body classes handler w = (Ret a, w').
Proof. intros H. unfold try_except. now rewrite H. Qed.

Lemma try_except_Raise_at {A} (body : M A) (classes : list exc_class)
  (handler : exn -> M A) (w w' : World) (e : exn) :
  body w = (Raise e, w') ->
  try_except body classes handler w =
    if handles classes e then handler e w' else (Raise e, w').
Proof. intros H. unfold try_except. now rewrite H. Qed.

Lemma logger_error_at (msg : string) (w : World) :
  logger_error msg w = (Ret tt, after w [EvLog ERROR msg]).
Proof. reflexivity. Qed.

Lemma logger_info_at (msg : string) (w : World) :
  logger_info msg w = (Ret tt, after w [EvLog INFO msg]).
Proof. reflexivity. Qed.

Lemma raise__at {A} (c : exc_class) (w : World) :
  @raise_ A c w = (Raise (mk_exn c ""), w).
Proof. reflexivity. Qed.

Lemma submitted_app (a b : list event) :
  submitted (a ++ b) = (submitted a ++ submitted b)%list.
Proof. unfold submitted. now rewrite flat_map_app. Qed.

Lemma extractor_calls_app (a b : list event) :
  extractor_calls (a ++ b) = (extractor_calls a ++ extractor_calls b)%list.
Proof. unfold extractor_calls. now rewrite filter_app. Qed.




Lemma handles_APIResponseError (msg : string) :
  handles [APIResponseError] (mk_exn APIResponseError msg) = true.
Proof. reflexivity. Qed.

(* ================================================================= *)
(** ** Properties: fetching and extracting *)

(** The fetch: one GET, then the answer of the network. *)
Lemma _api_response_answer (self : SnapchatDL) (username url : string) (w : World)
  (r : response) :
  Py.format (endpoint_web self) [username] = Ret url ->
  network w url user_agent = Some r ->
  _api_response self username w = (Ret r, after w [EvGet url user_agent]).
Proof.
  intros Hf Hn. unfold _api_response. rewrite Hf, bind_lift_Ret.
  unfold requests_get. rewrite bind_emit. rewrite network_after. now rewrite Hn.
Qed.

(** A status of 404: one log line, then [APIResponseError]. *)
Lemma _web_fetch_story_404 (self : SnapchatDL) (username url : string) (w : World)
  (r : response) :
  Py.format (endpoint_web self) [username] = Ret url ->
  network w url user_agent = Some r ->
  status_code r = 404 ->
  _web_fetch_story self username w =
    (Raise (mk_exn APIResponseError ""),
     after w [EvGet url user_agent;
              EvLog ERROR ("User '" ++ username ++ "' not found (404).")]).
Proof.
  intros Hf Hn Hs. unfold _web_fetch_story.
  rewrite (bind_Ret_at _ _ _ _ _ (_api_response_answer _ _ _ _ _ Hf Hn)).
  rewrite Hs. change (negb (404 =? requests_codes_ok)) with true.
  change (404 =? 404) with true. cbv iota.
  rewrite bind_bind. unfold logger_error. rewrite bind_emit.
  rewrite (bind_Raise_at _ _ _ _ _ (raise__at _ _)).
  now rewrite after_after.
Qed.

(** What [download] does with an [APIResponseError] of the fetch. *)
Lemma download_on_api_error (self : SnapchatDL) (username : string) (w w' : World)
  (msg : string) :
  _web_fetch_story self username w = (Raise (mk_exn APIResponseError msg), w') ->
  download self username w =
    (Ret tt,
     after w' [EvLog ERROR ("Could not fetch data for '" ++ username
                              ++ "'. The user may not exist or has no public stories.")]).
Proof.
  intros H. unfold download.
  rewrite (bind_Ret_at _ _ w
             (after w' [EvLog ERROR ("Could not fetch data for '" ++ username
                          ++ "'. The user may not exist or has no public stories.")])
             None); [reflexivity|].
  rewrite (try_except_Raise_at _ _ _ w w' (mk_exn APIResponseError msg)).
  - rewrite handles_APIResponseError. unfold logger_error. now rewrite bind_emit.
  - now rewrite (bind_Raise_at _ _ _ _ _ H).
Qed.

(** The extraction, once the page is there with status 200. *)
Lemma _web_fetch_story_200 (self : SnapchatDL) (username url : string) (w : World)
  (r : response) :
  Py.format (endpoint_web self) [username] = Ret url ->
  network w url user_agent = Some r ->
  status_code r = 200 ->
  _web_fetch_story self username w =
    try_except
      (raw <- lift (first_match (re_findall (regexp_web_json self) (text r))) ;;
       response_json <- json_loads_ raw ;;
       user_info <- lift (util_web_user_info response_json) ;;
       stories <- lift (util_web_story response_json) ;;
       ret (stories, user_info))%monad
      [IndexError; KeyError; ValueError]
      (fun e =>
         logger_error ("Error parsing response for '" ++ username ++ "': " ++ exn_str e) ;;
         raise_ APIResponseError)%monad
      (after w [EvGet url user_agent; EvFindall (regexp_web_json self) (text r)]).
Proof.
  intros Hf Hn Hs. unfold _web_fetch_story.
  rewrite (bind_Ret_at _ _ _ _ _ (_api_response_answer _ _ _ _ _ Hf Hn)).
  rewrite Hs. change (negb (200 =? requests_codes_ok)) with false. cbv iota.
  rewrite bind_ret. unfold re_findall_. rewrite bind_bind, bind_emit, bind_ret.
  now rewrite after_after.
Qed.

(** A subscript with a literal key succeeds on a dict that has the key, and
    on nothing else. *)
Lemma sub_Ret (x : value) (k : string) (v : value) :
  sub x k = Ret v -> exists d, x = VDict d /\ Py.dict_get d k = Some v.
Proof.
  unfold sub. destruct x as [| b | z | s | l | d]; simpl; try discriminate.
  intros H. exists d. split; [reflexivity|].
  destruct (Py.dict_get d k); [now inversion H | discriminate].
Qed.

Lemma sub_contains (x : value) (k : string) (v : value) :
  sub x k = Ret v -> Py.contains_str k x = Ret true.
Proof.
  intros H. destruct (sub_Ret _ _ _ H) as [d [-> Hd]]. simpl. now rewrite Hd.
Qed.


(** The decoder is called on the first match. *)
Lemma json_loads__value (s : string) (v : value) (w : World) :
  json_loads s = Ret v -> json_loads_ s w = (Ret v, after w [EvLoads s]).
Proof.
  intros H. unfold json_loads_. rewrite bind_emit. now rewrite H.
Qed.





(** The extraction on a payload that decodes: the two readers decide. *)
Lemma _web_fetch_story_decoded (self : SnapchatDL) (username url : string)
  (w : World) (r : response) (raw : string) (rest : list string) (content : value) :
  Py.format (endpoint_web self) [username] = Ret url ->
  network w url user_agent = Some r ->
  status_code r = 200 ->
  re_findall (regexp_web_json self) (text r) = raw :: rest ->
  json_loads raw = Ret content ->
  let w1 := after w [EvGet url user_agent; EvFindall (regexp_web_json self) (text r);
                     EvLoads raw] in
  let failed (e : exn) :=
    if handles [IndexError; KeyError; ValueError] e
    then (Raise (mk_exn APIResponseError ""),
          after w1 [EvLog ERROR ("Error parsing response for '" ++ username
                                   ++ "': " ++ exn_str e)])
    else (Raise e, w1) in
  _web_fetch_story self username w =
    match util_web_user_info content with
    | Ret user_info =>
        match util_web_story content with
        | Ret stories => (Ret (stories, user_info), w1)
        | Raise e => failed e
        end
    | Raise e => failed e
    end.
Proof.
  intros Hf Hn Hs Hm Hj w1 failed. rewrite (_web_fetch_story_200 _ _ _ _ _ Hf Hn Hs).
  rewrite Hm. unfold first_match.
  assert (Hl : json_loads_ raw
                 (after w [EvGet url user_agent;
                           EvFindall (regexp_web_json self) (text r)])
               = (Ret content, w1)).
  { rewrite (json_loads__value _ _ _ Hj), after_after. reflexivity. }
  assert (Hh : forall e : exn,
             (logger_error ("Error parsing response for '" ++ username ++ "': "
                              ++ exn_str e) ;; @raise_ (value * value) APIResponseError)%monad w1
             = (Raise (mk_exn APIResponseError ""),
                after w1 [EvLog ERROR ("Error parsing response for '" ++ username
                                         ++ "': " ++ exn_str e)])).
  { intros e. unfold logger_error. now rewrite bind_emit. }
  destruct (util_web_user_info content) as [user_info | e] eqn:Hu.
  - destruct (util_web_story content) as [stories | e] eqn:Hst.
    + apply try_except_Ret_at. rewrite bind_lift_Ret.
      rewrite (bind_Ret_at _ _ _ _ _ Hl). rewrite Hu, bind_lift_Ret.
      rewrite Hst, bind_lift_Ret. reflexivity.
    + rewrite (try_except_Raise_at _ _ _ _ w1 e).
      * unfold failed. destruct (handles _ e); [apply Hh | reflexivity].
      * rewrite bind_lift_Ret. rewrite (bind_Ret_at _ _ _ _ _ Hl).
        rewrite Hu, bind_lift_Ret. now rewrite Hst, bind_lift_Raise.
  - rewrite (try_except_Raise_at _ _ _ _ w1 e).
    + unfold failed. destruct (handles _ e); [apply Hh | reflexivity].
    + rewrite bind_lift_Ret. rewrite (bind_Ret_at _ _ _ _ _ Hl).
      now rewrite Hu, bind_lift_Raise.
Qed.

(** C7: a fetch that returns status 404 ends [download] in the user-not-found
    outcome: [_web_fetch_story] logs that the user was not found and raises
    [APIResponseError], which [download] logs and returns from; the body
    reaches neither the pattern search nor the decoder, and no download task
    is submitted. *)
Theorem download_status_404 (self : SnapchatDL) (username url : string) (w : World)
  (r : response) :
  Py.format (endpoint_web self) [username] = Ret url ->
  network w url user_agent = Some r ->
  status_code r = 404 ->
  let not_found := EvLog ERROR ("User '" ++ username ++ "' not found (404).") in
  let gave_up :=
    EvLog ERROR ("Could not fetch data for '" ++ username
                   ++ "'. The user may not exist or has no public stories.") in
  _web_fetch_story self username w =
    (Raise (mk_exn APIResponseError ""), after w [EvGet url user_agent; not_found]) /\
  download self username w =
    (Ret tt, after w [EvGet url user_agent; not_found; gave_up]) /\
  extractor_calls (trace (snd (download self username w))) = extractor_calls (trace w) /\
  submitted (trace (snd (download self username w))) = submitted (trace w).
Proof.
  intros Hf Hn Hs not_found gave_up.
  pose proof (_web_fetch_story_404 _ _ _ _ _ Hf Hn Hs) as H.
  pose proof (download_on_api_error _ _ _ _ _ H) as D.
  rewrite after_after in D.
  split; [exact H|]. split; [exact D|]. rewrite D. cbn [snd].
  rewrite trace_after, extractor_calls_app, submitted_app.
  split; apply app_nil_r.
Qed.


(** The two readers on a payload with a well-formed profile. *)
Lemma util_web_user_info_profile (content page profile field_id user_info : value) :
  page_props content = Ret page ->
  sub page "userProfile" = Ret profile ->
  sub profile "$case" = Ret field_id ->
  Py.getitem profile field_id = Ret user_info ->
  util_web_user_info content = Ret user_info.
Proof.
  unfold page_props, util_web_user_info. intros Hp Hu Hc Hi.
  destruct (sub content "props") as [props|]; cbn [obind] in *; [|discriminate].
  rewrite Hp. cbn [obind]. rewrite (sub_contains _ _ _ Hu). cbn [obind].
  rewrite Hu. cbn [obind]. now rewrite Hc.
Qed.

Lemma util_web_user_info_absent (content page : value) :
  page_props content = Ret page ->
  Py.contains_str "userProfile" page = Ret false ->
  util_web_user_info content = Raise (mk_exn UserNotFoundError "").
Proof.
  unfold page_props, util_web_user_info. intros Hp Hu.
  destruct (sub content "props") as [props|]; cbn [obind] in *; [|discriminate].
  rewrite Hp. cbn [obind]. now rewrite Hu.
Qed.

Lemma util_web_story_none (content page : value) :
  page_props content = Ret page ->
  (Py.contains_str "story" page = Ret false \/
   exists story, sub page "story" = Ret story /\ sub story "snapList" = Ret (VList [])) ->
  util_web_story content = Ret (VList []).
Proof.
  unfold page_props, util_web_story. intros Hp Hs.
  destruct (sub content "props") as [props|]; cbn [obind] in *; [|discriminate].
  rewrite Hp. cbn [obind]. destruct Hs as [Hs | (story & Hs & Hl)].
  - now rewrite Hs.
  - rewrite (sub_contains _ _ _ Hs). cbn [obind]. now rewrite Hs.
Qed.

(** C8: on a response whose page properties hold a well-formed user profile
    and either no story field or a story with an empty snap list, the
    extraction returns the empty item sequence with the user's profile (no
    exception), and [download] returns after at most the "has no stories"
    log line, having submitted no download task. *)
Theorem download_no_stories (self : SnapchatDL) (username url : string) (w : World)
  (r : response) (raw : string) (rest : list string)
  (content page profile field_id user_info : value) :
  Py.format (endpoint_web self) [username] = Ret url ->
  network w url user_agent = Some r ->
  status_code r = 200 ->
  re_findall (regexp_web_json self) (text r) = raw :: rest ->
  json_loads raw = Ret content ->
  page_props content = Ret page ->
  sub page "userProfile" = Ret profile ->
  sub profile "$case" = Ret field_id ->
  Py.getitem profile field_id = Ret user_info ->
  (Py.contains_str "story" page = Ret false \/
   exists story, sub page "story" = Ret story /\ sub story "snapList" = Ret (VList [])) ->
  let read := [EvGet url user_agent; EvFindall (regexp_web_json self) (text r);
               EvLoads raw] in
  _web_fetch_story self username w = (Ret (VList [], user_info), after w read) /\
  download self username w =
    (Ret tt,
     after w (read ++ if quiet self then []
                      else [EvLog INFO (username ++ " has no stories.")])) /\
  submitted (trace (snd (download self username w))) = submitted (trace w).
Proof.
  intros Hf Hn Hs Hm Hj Hp Hu Hc Hi Hst read.
  pose proof (_web_fetch_story_decoded _ _ _ _ _ _ _ _ Hf Hn Hs Hm Hj) as H.
  cbv zeta in H.
  rewrite (util_web_user_info_profile _ _ _ _ _ Hp Hu Hc Hi) in H.
  rewrite (util_web_story_none _ _ Hp Hst) in H.
  assert (D : download self username w =
              (Ret tt, after w (read ++ if quiet self then []
                                        else [EvLog INFO (username ++ " has no stories.")]))).
  { unfold download.
    rewrite (bind_Ret_at _ _ w (after w read) (Some (VList [], user_info))).
    - cbn [Py.truth negb]. destruct (quiet self); cbn [negb].
      + unfold ret. now rewrite app_nil_r.
      + now rewrite logger_info_at, after_after.
    - apply try_except_Ret_at. now rewrite (bind_Ret_at _ _ _ _ _ H). }
  split; [exact H|]. split; [exact D|]. rewrite D. cbn [snd].
  rewrite trace_after, submitted_app.
  destruct (quiet self); rewrite submitted_app; apply app_nil_r.
Qed.

(** C1: on a response with status 200 whose page properties hold no
    [userProfile], [util_web_user_info] raises [UserNotFoundError]; unless
    [snapchat_dlp.utils] derives that class from one of the classes the two
    handlers name, neither takes it: the exception leaves [download], and no
    line is logged. *)
Theorem download_no_profile_raises (self : SnapchatDL) (username url : string)
  (w : World) (r : response) (raw : string) (rest : list string)
  (content page : value) :
  Py.format (endpoint_web self) [username] = Ret url ->
  network w url user_agent = Some r ->
  status_code r = 200 ->
  re_findall (regexp_web_json self) (text r) = raw :: rest ->
  json_loads raw = Ret content ->
  page_props content = Ret page ->
  Py.contains_str "userProfile" page = Ret false ->
  handles [IndexError; KeyError; ValueError] (mk_exn UserNotFoundError "") = false ->
  handles [APIResponseError] (mk_exn UserNotFoundError "") = false ->
  download self username w =
    (Raise (mk_exn UserNotFoundError ""),
     after w [EvGet url user_agent; EvFindall (regexp_web_json self) (text r);
              EvLoads raw]).
Proof.
  intros Hf Hn Hs Hm Hj Hp Hu Hin Hout.
  pose proof (_web_fetch_story_decoded _ _ _ _ _ _ _ _ Hf Hn Hs Hm Hj) as H.
  cbv zeta in H. rewrite (util_web_user_info_absent _ _ Hp Hu) in H.
  rewrite Hin in H.
  unfold download.
  match goal with
  | |- bind ?m ?k w = _ =>
      rewrite (bind_Raise_at m k w
                 (after w [EvGet url user_agent;
                           EvFindall (regexp_web_json self) (text r); EvLoads raw])
                 (mk_exn UserNotFoundError ""))
  end; [reflexivity|].
  match goal with
  | |- try_except ?body ?classes ?handler w = _ =>
      rewrite (try_except_Raise_at body classes handler w _ _
                 (bind_Raise_at _ _ _ _ _ H))
  end.
  rewrite Hout. reflexivity.
Qed.

(** The other way round: were [UserNotFoundError] declared a subclass of
    [APIResponseError] (and of none of the three classes of the inner
    handler), [download] would log and return. *)
Lemma download_no_profile_if_derived (self : SnapchatDL) (username url : string)
  (w : World) (r : response) (raw : string) (rest : list string)
  (content page : value) :
  Py.format (endpoint_web self) [username] = Ret url ->
  network w url user_agent = Some r ->
  status_code r = 200 ->
  re_findall (regexp_web_json self) (text r) = raw :: rest ->
  json_loads raw = Ret content ->
  page_props content = Ret page ->
  Py.contains_str "userProfile" page = Ret false ->
  handles [IndexError; KeyError; ValueError] (mk_exn UserNotFoundError "") = false ->
  handles [APIResponseError] (mk_exn UserNotFoundError "") = true ->
  download self username w =
    (Ret tt,
     after w [EvGet url user_agent; EvFindall (regexp_web_json self) (text r);
              EvLoads raw;
              EvLog ERROR ("Could not fetch data for '" ++ username
                             ++ "'. The user may not exist or has no public stories.")]).
Proof.
  intros Hf Hn Hs Hm Hj Hp Hu Hin Hout.
  pose proof (_web_fetch_story_decoded _ _ _ _ _ _ _ _ Hf Hn Hs Hm Hj) as H.
  cbv zeta in H. rewrite (util_web_user_info_absent _ _ Hp Hu) in H.
  rewrite Hin in H.
  unfold download.
  match goal with
  | |- bind ?m ?k w = _ =>
      rewrite (bind_Ret_at m k w
                 (after w [EvGet url user_agent;
                           EvFindall (regexp_web_json self) (text r); EvLoads raw;
                           EvLog ERROR ("Could not fetch data for '" ++ username
                             ++ "'. The user may not exist or has no public stories.")])
                 None)
  end; [reflexivity|].
  match goal with
  | |- try_except ?body ?classes ?handler w = _ =>
      rewrite (try_except_Raise_at body classes handler w _ _
                 (bind_Raise_at _ _ _ _ _ H))
  end.
  rewrite Hout. unfold logger_error. now rewrite bind_emit, after_after.
Qed.

(* ================================================================= *)
(** ** Properties: the Namer *)

Lemma bind_deref {B} (r : ref) (k : value -> M B) (w : World) :
  bind (deref r) k w = k (nth r (store w) VNone) w.
Proof. reflexivity. Qed.

Lemma bind_alloc {B} (v : value) (k : ref -> M B) (w : World) :
  bind (alloc v) k w = k (List.length (store w)) (with_store w (store w ++ [v])).
Proof. reflexivity. Qed.

Lemma list_set_last {A} (l : list A) (a b : A) :
  list_set (l ++ [a]) (List.length l) b = (l ++ [b])%list.
Proof.
  induction l as [| x l IH]; [reflexivity|]. simpl. now rewrite IH.
Qed.

(** One step through the reads of [_download_media]. *)
Ltac namer_step :=
  first
    [ rewrite bind_bind
    | rewrite bind_deref
    | rewrite bind_lift_Ret
    | rewrite bind_lift_Raise
    | rewrite bind_emit
    | rewrite bind_ret
    | rewrite bind_alloc ].

Ltac namer_read H :=
  repeat (namer_step; rewrite ?store_after; rewrite ?H);
  match goal with
  | |- context [bind (lift ?o) _ _] =>
      let E := fresh "E" in destruct o eqn:E; cbn [obind]
  end.

Lemma nth_fresh (s : list value) (v : value) : nth (List.length s) (s ++ [v]) VNone = v.
Proof. now rewrite nth_middle. Qed.

(** The sidecar of an item that is a dict: a copy is made, [snapUser] is set
    in the copy, the copy is dumped. *)
Lemma sidecar_at (media : ref) (snap_user : value) (path : string) (w : World)
  (d : list (string * value)) :
  nth media (store w) VNone = VDict d ->
  (media_json <- dict_copy media ;;
   setitem media_json "snapUser" snap_user ;;
   dump_response media_json path)%monad w =
    (Ret tt,
     after (with_store w (store w ++ [VDict (Py.dict_set d "snapUser" snap_user)]))
       [EvDump (VDict (Py.dict_set d "snapUser" snap_user)) path]).
Proof.
  intros Hitem. unfold dict_copy, setitem, dump_response.
  rewrite bind_bind, bind_deref, Hitem, bind_alloc.
  rewrite bind_bind, bind_deref. cbn [store with_store]. rewrite nth_fresh.
  unfold assign at 1. unfold bind at 1. cbn [store with_store].
  rewrite list_set_last. rewrite bind_deref. cbn [store with_store].
  rewrite nth_fresh. reflexivity.
Qed.

Lemma _download_media_returns (self : SnapchatDL) (media : ref) (username : string)
  (snap_user : value) (w : World) :
  fst (_download_media self media username snap_user w) =
    name_item (directory_prefix self) (nth media (store w) VNone) username.
Proof.
  unfold _download_media, name_item, media_sub, os_makedirs.
  destruct (nth media (store w) VNone) as [| b | z | s | l | d] eqn:Hitem;
    try (repeat (namer_step; rewrite ?Hitem); reflexivity).
  do 10 (namer_read Hitem; [|reflexivity]).
  repeat (namer_step; rewrite ?store_after; rewrite ?Hitem).
  destruct (dump_json self).
  - match goal with
    | |- fst (bind ?m ?k ?w1) = _ =>
        rewrite (bind_Ret_at m k w1 _ tt (sidecar_at media snap_user _ w1 d Hitem))
    end.
    reflexivity.
  - reflexivity.
Qed.
(* ================================================================= *)
(** ** Properties: text *)

Lemma chars_app (a b : string) : Text.chars (a ++ b) = (Text.chars a ++ Text.chars b)%list.
Proof.
  induction a as [| c a IH]; [reflexivity|]. simpl. now rewrite <- IH.
Qed.

Lemma chars_inj (a b : string) : Text.chars a = Text.chars b -> a = b.
Proof.
  intros H. rewrite <- (string_of_list_ascii_of_string a).
  rewrite <- (string_of_list_ascii_of_string b). unfold Text.chars in H. now rewrite H.
Qed.

Lemma append_assoc (a b c : string) : (a ++ b) ++ c = a ++ b ++ c.
Proof.
  induction a as [| x a IH]; [reflexivity|]. simpl. now rewrite IH.
Qed.

Lemma append_nil_r (a : string) : a ++ "" = a.
Proof.
  induction a as [| x a IH]; [reflexivity|]. simpl. now rewrite IH.
Qed.

(** Splitting at the first, and at the last, occurrence of a separator. *)
Lemma split_first {A} (sep : A) (a1 a2 r1 r2 : list A) :
  ~ In sep a1 -> ~ In sep a2 ->
  (a1 ++ sep :: r1 = a2 ++ sep :: r2)%list -> a1 = a2 /\ r1 = r2.
Proof.
  revert a2. induction a1 as [| x a1 IH]; intros [| y a2] H1 H2 E; simpl in *.
  - inversion E. now split.
  - inversion E; subst. exfalso. apply H2. now left.
  - inversion E; subst. exfalso. apply H1. now left.
  - inversion E; subst. destruct (IH a2) as [-> ->]; auto.
Qed.

Lemma split_last {A} (sep : A) (a1 a2 r1 r2 : list A) :
  ~ In sep r1 -> ~ In sep r2 ->
  (a1 ++ sep :: r1 = a2 ++ sep :: r2)%list -> a1 = a2 /\ r1 = r2.
Proof.
  intros H1 H2 E. apply (f_equal (@rev A)) in E.
  rewrite !rev_app_distr in E. simpl in E. rewrite <- !app_assoc in E. simpl in E.
  apply split_first in E.
  - destruct E as [Er Ea]. split.
    + rewrite <- (rev_involutive a1), <- (rev_involutive a2). now rewrite Ea.
    + rewrite <- (rev_involutive r1), <- (rev_involutive r2). now rewrite Er.
  - now rewrite <- in_rev.
  - now rewrite <- in_rev.
Qed.

Lemma has_char_In (c : ascii) (s : string) :
  Text.has_char c s = false -> ~ In c (Text.chars s).
Proof.
  induction s as [| d s IH]; simpl; [tauto|].
  intros H. apply orb_false_iff in H as [Hd Hs]. intros [E | E].
  - subst. now rewrite Ascii.eqb_refl in Hd.
  - now apply IH.
Qed.

Lemma has_char_app (c : ascii) (a b : string) :
  Text.has_char c (a ++ b) = Text.has_char c a || Text.has_char c b.
Proof.
  induction a as [| d a IH]; [reflexivity|]. simpl. now rewrite IH, orb_assoc.
Qed.

Lemma last_char_app (a b : string) :
  b <> "" -> Text.last_char (a ++ b) = Text.last_char b.
Proof.
  intros Hb. induction a as [| c a IH]; [reflexivity|].
  simpl. rewrite IH. destruct (a ++ b) eqn:E; [|reflexivity].
  destruct a; simpl in E; [now subst | discriminate].
Qed.

Lemma startswith_cons (c : ascii) (s : string) (d : ascii) :
  Text.startswith (String c s) (String d "") = Ascii.eqb d c.
Proof.
  unfold Text.startswith. simpl. destruct (ascii_dec d c) as [-> | N].
  - destruct s; now rewrite Ascii.eqb_refl.
  - symmetry. now apply Ascii.eqb_neq.
Qed.

(* ================================================================= *)
(** ** Properties: time stamps *)

Lemma digit_val_char (d : Z) : 0 <= d <= 9 -> Text.digit_val (Text.digit_char d) = d.
Proof.
  intros H.
  assert (C : d = 0 \/ d = 1 \/ d = 2 \/ d = 3 \/ d = 4 \/ d = 5 \/ d = 6 \/ d = 7
              \/ d = 8 \/ d = 9) by lia.
  repeat (destruct C as [-> | C]; [reflexivity|]). now subst.
Qed.

Lemma digit_char_inj (a b : Z) :
  0 <= a <= 9 -> 0 <= b <= 9 -> Text.digit_char a = Text.digit_char b -> a = b.
Proof.
  intros Ha Hb E. rewrite <- (digit_val_char a Ha), <- (digit_val_char b Hb).
  now rewrite E.
Qed.

Lemma digit_char_is_digit (d : Z) : 0 <= d <= 9 -> Text.is_digit (Text.digit_char d) = true.
Proof.
  intros H.
  assert (C : d = 0 \/ d = 1 \/ d = 2 \/ d = 3 \/ d = 4 \/ d = 5 \/ d = 6 \/ d = 7
              \/ d = 8 \/ d = 9) by lia.
  repeat (destruct C as [-> | C]; [reflexivity|]). now subst.
Qed.

Lemma pad2_inj (a b : Z) :
  0 <= a <= 99 -> 0 <= b <= 99 -> Calendar.pad2 a = Calendar.pad2 b -> a = b.
Proof.
  intros Ha Hb E. unfold Calendar.pad2 in E. injection E as E1 E2.
  apply digit_char_inj in E1; [| Z.div_mod_to_equations; lia ..].
  apply digit_char_inj in E2; [| Z.div_mod_to_equations; lia ..].
  Z.div_mod_to_equations; lia.
Qed.

Lemma pad4_inj (a b : Z) :
  0 <= a <= 9999 -> 0 <= b <= 9999 -> Calendar.pad4 a = Calendar.pad4 b -> a = b.
Proof.
  intros Ha Hb E. unfold Calendar.pad4 in E. injection E as E1 E2 E3 E4.
  apply digit_char_inj in E1; [| Z.div_mod_to_equations; lia ..].
  apply digit_char_inj in E2; [| Z.div_mod_to_equations; lia ..].
  apply digit_char_inj in E3; [| Z.div_mod_to_equations; lia ..].
  apply digit_char_inj in E4; [| Z.div_mod_to_equations; lia ..].
  Z.div_mod_to_equations; lia.
Qed.

(** The calendar. *)
Lemma doe_range (days : Z) : 0 <= Calendar.doe_of days < 146097.
Proof. unfold Calendar.doe_of. apply Z.mod_pos_bound. lia. Qed.

Lemma yoe_range (doe : Z) : 0 <= doe < 146097 -> 0 <= Calendar.yoe_of doe <= 399.
Proof. unfold Calendar.yoe_of. intros. Z.div_mod_to_equations; lia. Qed.

Lemma doy_range (doe : Z) : 0 <= doe < 146097 -> 0 <= Calendar.doy_of doe <= 365.
Proof. unfold Calendar.doy_of, Calendar.yoe_of. intros. Z.div_mod_to_equations; lia. Qed.

Lemma mp_range (doy : Z) : 0 <= doy <= 365 -> 0 <= Calendar.mp_of doy <= 11.
Proof. unfold Calendar.mp_of. intros. Z.div_mod_to_equations; lia. Qed.

Lemma day_range (doy : Z) : 0 <= doy <= 365 -> 1 <= Calendar.day_of doy <= 31.
Proof. unfold Calendar.day_of, Calendar.mp_of. intros. Z.div_mod_to_equations; lia. Qed.

Lemma month_range (mp : Z) : 0 <= mp <= 11 -> 1 <= Calendar.month_of mp <= 12.
Proof. unfold Calendar.month_of. intros. destruct (mp <? 10) eqn:E; lia. Qed.

(** Two day counts with the same civil date are the same day. *)
Lemma civil_inj (d1 d2 : Z) : Calendar.civil d1 = Calendar.civil d2 -> d1 = d2.
Proof.
  unfold Calendar.civil. intros H.
  pose proof (doe_range d1) as R1. pose proof (doe_range d2) as R2.
  pose proof (yoe_range _ R1) as Y1. pose proof (yoe_range _ R2) as Y2.
  pose proof (doy_range _ R1) as D1. pose proof (doy_range _ R2) as D2.
  pose proof (mp_range _ D1) as M1. pose proof (mp_range _ D2) as M2.
  injection H as Hy Hm Hd.
  assert (Hmp : Calendar.mp_of (Calendar.doy_of (Calendar.doe_of d1))
                = Calendar.mp_of (Calendar.doy_of (Calendar.doe_of d2))).
  { unfold Calendar.month_of in Hm.
    destruct (Calendar.mp_of (Calendar.doy_of (Calendar.doe_of d1)) <? 10) eqn:E1;
    destruct (Calendar.mp_of (Calendar.doy_of (Calendar.doe_of d2)) <? 10) eqn:E2; lia. }
  assert (Hdoy : Calendar.doy_of (Calendar.doe_of d1) = Calendar.doy_of (Calendar.doe_of d2)).
  { unfold Calendar.day_of in Hd. rewrite Hmp in Hd. lia. }
  rewrite Hm in Hy.
  assert (Hyy : Calendar.yoe_of (Calendar.doe_of d1) + Calendar.era_of d1 * 400
                = Calendar.yoe_of (Calendar.doe_of d2) + Calendar.era_of d2 * 400).
  { destruct (Calendar.month_of (Calendar.mp_of (Calendar.doy_of (Calendar.doe_of d2))) <=? 2);
      lia. }
  assert (Hera : Calendar.era_of d1 = Calendar.era_of d2) by lia.
  assert (Hyoe : Calendar.yoe_of (Calendar.doe_of d1) = Calendar.yoe_of (Calendar.doe_of d2))
    by lia.
  assert (Hdoe : Calendar.doe_of d1 = Calendar.doe_of d2).
  { unfold Calendar.doy_of in Hdoy. rewrite Hyoe in Hdoy. lia. }
  unfold Calendar.doe_of, Calendar.era_of in *.
  pose proof (Z.div_mod (d1 + 719468) 146097 ltac:(lia)).
  pose proof (Z.div_mod (d2 + 719468) 146097 ltac:(lia)).
  lia.
Qed.

(** The years of the days from 1970-01-01 to 9999-12-31. *)
Lemma civil_range (days : Z) :
  0 <= days < 2932897 ->
  1970 <= fst (fst (Calendar.civil days)) <= 9999 /\
  1 <= snd (fst (Calendar.civil days)) <= 12 /\
  1 <= snd (Calendar.civil days) <= 31.
Proof.
  intros H. unfold Calendar.civil. cbn [fst snd].
  pose proof (doe_range days) as R1.
  pose proof (yoe_range _ R1) as Y1.
  pose proof (doy_range _ R1) as D1.
  pose proof (mp_range _ D1) as M1.
  pose proof (month_range _ M1) as Mo.
  pose proof (day_range _ D1) as Da.
  split; [| split; assumption].
  unfold Calendar.month_of in *.
  destruct (Calendar.mp_of (Calendar.doy_of (Calendar.doe_of days)) <? 10) eqn:E1.
  - destruct (Calendar.mp_of (Calendar.doy_of (Calendar.doe_of days)) + 3 <=? 2) eqn:E2;
      [lia|].
    unfold Calendar.era_of, Calendar.doe_of, Calendar.doy_of, Calendar.yoe_of,
      Calendar.mp_of in *.
    Z.div_mod_to_equations; lia.
  - destruct (Calendar.mp_of (Calendar.doy_of (Calendar.doe_of days)) - 9 <=? 2) eqn:E2;
      [|lia].
    unfold Calendar.era_of, Calendar.doe_of, Calendar.doy_of, Calendar.yoe_of,
      Calendar.mp_of in *.
    Z.div_mod_to_equations; lia.
Qed.

Lemma utc_fields_range (ts : Z) :
  0 <= ts < 253402300800 -> in_range (Calendar.utc_fields ts).
Proof.
  intros H. unfold Calendar.utc_fields, in_range.
  assert (Hd : 0 <= ts / 86400 < 2932897) by (Z.div_mod_to_equations; lia).
  pose proof (civil_range _ Hd) as (Hy & Hm & Hdd).
  destruct (Calendar.civil (ts / 86400)) as [[y m] d]. cbn [fst snd] in *.
  cbn [Calendar.year Calendar.month Calendar.day Calendar.hour Calendar.minute
         Calendar.second].
  repeat split; try lia; Z.div_mod_to_equations; lia.
Qed.

Lemma utc_fields_inj (t1 t2 : Z) :
  Calendar.utc_fields t1 = Calendar.utc_fields t2 -> t1 = t2.
Proof.
  unfold Calendar.utc_fields. intros H.
  destruct (Calendar.civil (t1 / 86400)) as [[y1 m1] d1] eqn:C1.
  destruct (Calendar.civil (t2 / 86400)) as [[y2 m2] d2] eqn:C2.
  injection H as Hy Hm Hd Hh Hmi Hs. subst.
  assert (Hdays : t1 / 86400 = t2 / 86400).
  { apply civil_inj. now rewrite C1, C2. }
  Z.div_mod_to_equations; lia.
Qed.

Lemma all_of_app (p : ascii -> bool) (a b : string) :
  all_of p (a ++ b) = all_of p a && all_of p b.
Proof.
  induction a as [| c a IH]; [reflexivity|]. simpl. now rewrite IH, andb_assoc.
Qed.

Lemma stamp_char_other (c d : ascii) :
  stamp_char c = true -> stamp_char d = false -> Ascii.eqb c d = false.
Proof.
  intros Hc Hd. destruct (Ascii.eqb c d) eqn:E; [|reflexivity].
  apply Ascii.eqb_eq in E. subst. congruence.
Qed.

Lemma all_of_stamp_has_char (s : string) (d : ascii) :
  all_of stamp_char s = true -> stamp_char d = false -> Text.has_char d s = false.
Proof.
  intros Hs Hd. induction s as [| c s IH]; [reflexivity|].
  simpl in *. apply andb_true_iff in Hs as [Hc Hs].
  rewrite (stamp_char_other _ _ Hc Hd). now apply IH.
Qed.

Lemma stamp_char_digit (d : Z) : 0 <= d <= 9 -> stamp_char (Text.digit_char d) = true.
Proof.
  intros H. unfold stamp_char. now rewrite (digit_char_is_digit d H).
Qed.

Lemma pad2_stamp (n : Z) : 0 <= n <= 99 -> all_of stamp_char (Calendar.pad2 n) = true.
Proof.
  intros H. unfold Calendar.pad2. cbn [all_of].
  rewrite !stamp_char_digit; [reflexivity | Z.div_mod_to_equations; lia ..].
Qed.

Lemma pad4_stamp (n : Z) : 0 <= n <= 9999 -> all_of stamp_char (Calendar.pad4 n) = true.
Proof.
  intros H. unfold Calendar.pad4. cbn [all_of].
  rewrite !stamp_char_digit; [reflexivity | Z.div_mod_to_equations; lia ..].
Qed.

Lemma date_str_stamp (f : Calendar.fields) :
  in_range f -> all_of stamp_char (date_str f) = true.
Proof.
  intros (Hy & Hm & Hd & _). unfold date_str.
  rewrite !all_of_app, pad4_stamp, !pad2_stamp by lia. reflexivity.
Qed.

Lemma stamp_str_stamp (f : Calendar.fields) :
  in_range f -> all_of stamp_char (stamp_str f) = true.
Proof.
  intros R. pose proof (date_str_stamp f R) as D.
  destruct R as (Hy & Hm & Hd & Hh & Hmi & Hs). unfold stamp_str.
  rewrite !all_of_app, D, !pad2_stamp by lia. reflexivity.
Qed.

Lemma year_str_pad4 (y : Z) : 0 <= y <= 9999 -> Calendar.year_str y = Calendar.pad4 y.
Proof.
  intros H. unfold Calendar.year_str.
  destruct (0 <=? y) eqn:E1; [|lia]. destruct (y <? 10000) eqn:E2; [reflexivity | lia].
Qed.

(** The three formats of the program, on a time stamp of the range. *)
Lemma strftime_date (f : Calendar.fields) :
  in_range f -> Calendar.strftime_chars f (Text.chars "%Y-%m-%d") = date_str f.
Proof.
  intros (Hy & _). cbn [Text.chars list_ascii_of_string Calendar.strftime_chars].
  rewrite year_str_pad4 by lia. unfold date_str. now rewrite append_nil_r.
Qed.

Lemma strftime_stamp (f : Calendar.fields) :
  in_range f -> Calendar.strftime_chars f (Text.chars "%Y-%m-%d_%H-%M-%S") = stamp_str f.
Proof.
  intros (Hy & _). cbn [Text.chars list_ascii_of_string Calendar.strftime_chars].
  rewrite year_str_pad4 by lia. unfold stamp_str, date_str.
  rewrite append_nil_r, !append_assoc. reflexivity.
Qed.

Lemma strftime_template (f : Calendar.fields) :
  in_range f ->
  Calendar.strftime_chars f (Text.chars "%Y-%m-%d_%H-%M-%S {} {}.{}")
  = stamp_str f ++ " {} {}.{}".
Proof.
  intros (Hy & _). cbn [Text.chars list_ascii_of_string Calendar.strftime_chars].
  rewrite year_str_pad4 by lia. unfold stamp_str, date_str.
  rewrite !append_assoc. reflexivity.
Qed.

Lemma stamp_str_inj (f g : Calendar.fields) :
  in_range f -> in_range g -> stamp_str f = stamp_str g -> f = g.
Proof.
  intros (Hy & Hm & Hd & Hh & Hmi & Hs) (Gy & Gm & Gd & Gh & Gmi & Gs) E.
  destruct f as [y m d h mi s], g as [y' m' d' h' mi' s'].
  cbn [Calendar.year Calendar.month Calendar.day Calendar.hour Calendar.minute
         Calendar.second] in *.
  unfold stamp_str, date_str, Calendar.pad2, Calendar.pad4 in E.
  cbn [Calendar.year Calendar.month Calendar.day Calendar.hour Calendar.minute
         Calendar.second String.append] in E.
  injection E as Y1 Y2 Y3 Y4 M1 M2 D1 D2 H1 H2 I1 I2 S1 S2.
  assert (Ey : Calendar.pad4 y = Calendar.pad4 y').
  { unfold Calendar.pad4. now rewrite Y1, Y2, Y3, Y4. }
  assert (Em : Calendar.pad2 m = Calendar.pad2 m').
  { unfold Calendar.pad2. now rewrite M1, M2. }
  assert (Ed : Calendar.pad2 d = Calendar.pad2 d').
  { unfold Calendar.pad2. now rewrite D1, D2. }
  assert (Eh : Calendar.pad2 h = Calendar.pad2 h').
  { unfold Calendar.pad2. now rewrite H1, H2. }
  assert (Ei : Calendar.pad2 mi = Calendar.pad2 mi').
  { unfold Calendar.pad2. now rewrite I1, I2. }
  assert (Es : Calendar.pad2 s = Calendar.pad2 s').
  { unfold Calendar.pad2. now rewrite S1, S2. }
  apply pad4_inj in Ey; [|lia ..].
  apply pad2_inj in Em; [|lia ..]. apply pad2_inj in Ed; [|lia ..].
  apply pad2_inj in Eh; [|lia ..]. apply pad2_inj in Ei; [|lia ..].
  apply pad2_inj in Es; [|lia ..].
  now subst.
Qed.

(** Formatting: a character other than a brace stands for itself. *)
Lemma format_chars_plain (c : ascii) (rest : list ascii) (args : list string) :
  Ascii.eqb c "{" = false -> Ascii.eqb c "}" = false ->
  Py.format_chars (c :: rest) args
  = obind (Py.format_chars rest args) (fun r => Ret (String c r)).
Proof.
  destruct c as [b0 b1 b2 b3 b4 b5 b6 b7].
  destruct b0, b1, b2, b3, b4, b5, b6, b7; intros H1 H2;
    try discriminate H1; try discriminate H2; reflexivity.
Qed.

Lemma format_chars_stamp (s : string) (t : list ascii) (args : list string) :
  all_of stamp_char s = true ->
  Py.format_chars (Text.chars s ++ t) args
  = obind (Py.format_chars t args) (fun r => Ret (s ++ r)).
Proof.
  intros H. induction s as [| c s IH].
  - simpl. now destruct (Py.format_chars t args).
  - simpl in H. apply andb_true_iff in H as [Hc Hs].
    cbn [Text.chars list_ascii_of_string app].
    rewrite format_chars_plain.
    + fold (Text.chars s). rewrite (IH Hs).
      now destruct (Py.format_chars t args).
    + now apply (stamp_char_other _ _ Hc).
    + now apply (stamp_char_other _ _ Hc).
Qed.

(** The file name of an item. *)
Lemma format_template (f : Calendar.fields) (a b c : string) :
  in_range f ->
  Py.format (stamp_str f ++ " {} {}.{}") [a; b; c]
  = Ret (stamp_str f ++ " " ++ a ++ " " ++ b ++ "." ++ c).
Proof.
  intros R. unfold Py.format. rewrite chars_app.
  rewrite (format_chars_stamp _ _ _ (stamp_str_stamp f R)).
  cbn [Text.chars list_ascii_of_string Py.format_chars obind].
  now rewrite append_nil_r.
Qed.

(* ================================================================= *)
(** ** Properties: paths *)

Lemma stamp_startswith (s rest : string) :
  all_of stamp_char s = true -> s <> "" -> Text.startswith (s ++ rest) "/" = false.
Proof.
  intros H N. destruct s as [| c s]; [congruence|].
  simpl in H. apply andb_true_iff in H as [Hc _].
  cbn [String.append]. rewrite startswith_cons.
  rewrite Ascii.eqb_sym. now apply (stamp_char_other _ _ Hc).
Qed.

Lemma stamp_last_char (s : string) (c : ascii) :
  all_of stamp_char s = true -> Text.last_char s = Some c -> stamp_char c = true.
Proof.
  induction s as [| d s IH]; [discriminate|].
  intros H L. simpl in H. apply andb_true_iff in H as [Hd Hs].
  destruct s as [| e s].
  - simpl in L. now inversion L; subst.
  - apply IH; [exact Hs | exact L].
Qed.

Lemma stamp_endswith (p s : string) :
  all_of stamp_char s = true -> s <> "" -> Text.endswith_char (p ++ s) "/" = false.
Proof.
  intros H N. unfold Text.endswith_char. rewrite (last_char_app _ _ N).
  destruct (Text.last_char s) as [c|] eqn:L; [|reflexivity].
  apply (stamp_char_other c "/"); [now apply (stamp_last_char s) | reflexivity].
Qed.

Lemma append_not_empty (p s : string) : s <> "" -> String.eqb (p ++ s) "" = false.
Proof.
  intros N. apply String.eqb_neq. destruct p; simpl; [exact N | discriminate].
Qed.

Lemma join_date (root username date file : string) :
  all_of stamp_char date = true -> date <> "" ->
  Text.startswith file "/" = false ->
  Path.join (Path.join root [username; date]) [file]
  = dir_prefix root username ++ date ++ "/" ++ file.
Proof.
  intros Hd Nd Hf. unfold Path.join. cbn [fold_left]. unfold dir_prefix.
  set (p := Path.join2 root username).
  assert (E : Path.join2 p date
              = (if String.eqb p "" || Text.endswith_char p "/" then p else p ++ "/")
                  ++ date).
  { unfold Path.join2.
    rewrite <- (append_nil_r date) at 1. rewrite (stamp_startswith _ _ Hd Nd).
    destruct (String.eqb p "" || Text.endswith_char p "/");
      [reflexivity | now rewrite append_assoc]. }
  rewrite E.
  set (q := if String.eqb p "" || Text.endswith_char p "/" then p else p ++ "/").
  unfold Path.join2. rewrite Hf.
  rewrite (append_not_empty _ _ Nd), (stamp_endswith _ _ Hd Nd). cbn [orb].
  now rewrite append_assoc.
Qed.

Lemma dir_prefix_plain (root username : string) :
  plain_root root = true -> plain_component username = true ->
  dir_prefix root username = root ++ "/" ++ username ++ "/".
Proof.
  unfold plain_root, plain_component, dir_prefix, Path.join2.
  intros Hr Hu.
  apply andb_true_iff in Hr as [Hr1 Hr2].
  apply andb_true_iff in Hu as [Hu Hu3]. apply andb_true_iff in Hu as [Hu1 Hu2].
  apply negb_true_iff in Hr1, Hr2, Hu1, Hu2, Hu3.
  rewrite Hu2, Hr1, Hr2. cbn [orb].
  assert (Nu : username <> "") by now apply String.eqb_neq.
  rewrite <- append_assoc.
  rewrite (append_not_empty _ _ Nu).
  unfold Text.endswith_char in *. rewrite (last_char_app _ _ Nu).
  destruct (Text.last_char username) as [c|]; [rewrite Hu3 | ]; cbn [orb];
    now rewrite !append_assoc.
Qed.

Lemma date_str_not_empty (f : Calendar.fields) : date_str f <> "".
Proof. unfold date_str, Calendar.pad4. discriminate. Qed.

Lemma stamp_str_not_empty (f : Calendar.fields) : stamp_str f <> "".
Proof. unfold stamp_str, date_str, Calendar.pad4. discriminate. Qed.

(* ================================================================= *)
(** ** Properties: naming a well-formed item *)

(** What [story_item] says of the reads of the Namer. *)
Lemma story_item_reads (item : value) (it : StoryItem) :
  story_item item = Some it ->
  exists snap_id_obj snap_urls timestamp_obj timestamp_value,
    sub item "snapId" = Ret snap_id_obj /\
    sub snap_id_obj "value" = Ret (VStr (id it)) /\
    sub item "snapUrls" = Ret snap_urls /\
    sub snap_urls "mediaUrl" = Ret (mediaUrl it) /\
    sub item "snapMediaType" = Ret (mediaType it) /\
    sub item "timestampInSec" = Ret timestamp_obj /\
    sub timestamp_obj "value" = Ret timestamp_value /\
    Py.int timestamp_value = Ret (timestampSeconds it) /\
    0 <= timestampSeconds it < 253402300800.
Proof.
  unfold story_item. intros H.
  destruct (sub item "snapId") as [a |] eqn:E1; cbn [obind] in H; [|discriminate].
  destruct (sub a "value") as [[| | | i | |] |] eqn:E2; try discriminate.
  destruct (sub item "snapUrls") as [b |] eqn:E3; cbn [obind] in H; [|discriminate].
  destruct (sub b "mediaUrl") as [u |] eqn:E4; [|discriminate].
  destruct (sub item "snapMediaType") as [k |] eqn:E5; [|discriminate].
  destruct (sub item "timestampInSec") as [c |] eqn:E6; cbn [obind] in H; [|discriminate].
  destruct (sub c "value") as [v |] eqn:E7; cbn [obind] in H; [|discriminate].
  destruct (Py.int v) as [ts |] eqn:E8; [|discriminate].
  destruct ((0 <=? ts) && (ts <? 253402300800)) eqn:E9; [|discriminate].
  inversion H; subst; clear H. cbn [id mediaUrl mediaType timestampSeconds].
  apply andb_true_iff in E9 as [L1 L2].
  exists a, b, c, v. repeat split; auto; lia.
Qed.

Lemma extension_of_getitem (kind : value) (ext : string) :
  extension_of kind = Some ext -> Py.getitem MEDIA_TYPE kind = Ret (VStr ext).
Proof.
  unfold extension_of. destruct (Py.getitem MEDIA_TYPE kind) as [[| | | s | |] |];
    try discriminate. now intros [= ->].
Qed.

Lemma name_item_well_formed (root username : string) (item : value) (it : StoryItem)
  (ext : string) :
  story_item item = Some it ->
  extension_of (mediaType it) = Some ext ->
  name_item root item username =
    Ret (mediaUrl it,
         dir_prefix root username
           ++ date_str (Calendar.utc_fields (timestampSeconds it)) ++ "/"
           ++ file_name username it ext).
Proof.
  intros Hi He.
  destruct (story_item_reads _ _ Hi) as (a & b & c & v & E1 & E2 & E3 & E4 & E5 & E6 & E7
                                           & E8 & R).
  pose proof (utc_fields_range _ R) as F.
  unfold name_item.
  rewrite E1. cbn [obind]. rewrite E2. cbn [obind]. rewrite E3. cbn [obind].
  rewrite E4. cbn [obind]. rewrite E5. cbn [obind]. rewrite E6. cbn [obind].
  rewrite E7. cbn [obind]. rewrite E8. cbn [obind].
  rewrite (extension_of_getitem _ _ He). cbn [obind Py.str].
  unfold Calendar.strf_time.
  rewrite (strftime_template _ F), (strftime_date _ F).
  rewrite (format_template _ _ _ _ F). cbn [obind].
  rewrite join_date.
  - reflexivity.
  - now apply date_str_stamp.
  - apply date_str_not_empty.
  - apply stamp_startswith; [now apply stamp_str_stamp | apply stamp_str_not_empty].
Qed.

(** The three formats, on the time stamp of a well-formed item. *)
Lemma strf_time_date (ts : Z) :
  0 <= ts < 253402300800 ->
  Calendar.strf_time ts "%Y-%m-%d" = date_str (Calendar.utc_fields ts).
Proof. intros R. apply strftime_date. now apply utc_fields_range. Qed.

Lemma strf_time_stamp (ts : Z) :
  0 <= ts < 253402300800 ->
  Calendar.strf_time ts "%Y-%m-%d_%H-%M-%S" = stamp_str (Calendar.utc_fields ts).
Proof. intros R. apply strftime_stamp. now apply utc_fields_range. Qed.

Lemma story_item_range (item : value) (it : StoryItem) :
  story_item item = Some it -> 0 <= timestampSeconds it < 253402300800.
Proof.
  intros H. destruct (story_item_reads _ _ H) as (a & b & c & v & E). tauto.
Qed.

Lemma nth_of_nth_error (s : list value) (r : ref) (v : value) :
  nth_error s r = Some v -> nth r s VNone = v.
Proof. intros H. now apply nth_error_nth. Qed.

(** C3 (amended): for a well-formed item of a recognised kind, an output
    root that does not end with a separator and a user name that is not
    empty and has no separator at either end, the Namer's output path is
    [<root>/<username>/<date>/<date_time> <id> <username>.<extension>]: the
    formatted time stamp, the id and the user name are separated by single
    spaces. *)
Theorem media_output_shape (self : SnapchatDL) (media : ref) (username : string)
  (snap_user : value) (w : World) (item : value) (it : StoryItem) (ext : string) :
  nth_error (store w) media = Some item ->
  story_item item = Some it ->
  extension_of (mediaType it) = Some ext ->
  plain_root (directory_prefix self) = true ->
  plain_component username = true ->
  fst (_download_media self media username snap_user w) =
    Ret (mediaUrl it, output_path (directory_prefix self) username it ext).
Proof.
  intros Hm Hi He Hr Hu.
  rewrite _download_media_returns, (nth_of_nth_error _ _ _ Hm).
  rewrite (name_item_well_formed _ _ _ _ _ Hi He).
  rewrite (dir_prefix_plain _ _ Hr Hu).
  pose proof (story_item_range _ _ Hi) as R.
  unfold output_path, file_name.
  rewrite (strf_time_date _ R), (strf_time_stamp _ R).
  now rewrite !append_assoc.
Qed.

(** C4 (amended): the Namer takes the extension of an item from the table by
    a plain subscript: for a kind the table holds an extension for, the
    output path ends with a dot and that extension; for a kind the subscript
    raises on, the Namer raises the same exception and returns no path:
    there is no fallback extension. *)
Theorem media_extension_lookup (self : SnapchatDL) (media : ref) (username : string)
  (snap_user : value) (w : World) (item : value) (it : StoryItem) :
  nth_error (store w) media = Some item ->
  story_item item = Some it ->
  (forall ext : string,
      extension_of (mediaType it) = Some ext ->
      exists stem : string,
        fst (_download_media self media username snap_user w) =
          Ret (mediaUrl it, stem ++ "." ++ ext)) /\
  (forall e : exn,
      Py.getitem MEDIA_TYPE (mediaType it) = Raise e ->
      fst (_download_media self media username snap_user w) = Raise e).
Proof.
  intros Hm Hi. split.
  - intros ext He.
    exists (dir_prefix (directory_prefix self) username
              ++ date_str (Calendar.utc_fields (timestampSeconds it)) ++ "/"
              ++ stamp_str (Calendar.utc_fields (timestampSeconds it))
              ++ " " ++ id it ++ " " ++ username).
    rewrite _download_media_returns, (nth_of_nth_error _ _ _ Hm).
    rewrite (name_item_well_formed _ _ _ _ _ Hi He).
    unfold file_name. now rewrite !append_assoc.
  - intros e He.
    rewrite _download_media_returns, (nth_of_nth_error _ _ _ Hm).
    destruct (story_item_reads _ _ Hi)
      as (a & b & c & v & E1 & E2 & E3 & E4 & E5 & E6 & E7 & E8 & R).
    unfold name_item.
    rewrite E1. cbn [obind]. rewrite E2. cbn [obind]. rewrite E3. cbn [obind].
    rewrite E4. cbn [obind]. rewrite E5. cbn [obind]. rewrite E6. cbn [obind].
    rewrite E7. cbn [obind]. rewrite E8. cbn [obind].
    now rewrite He.
Qed.

(** A date, a time stamp, an id and an extension make one file path only. *)
Lemma file_path_inj (f1 f2 : Calendar.fields) (i1 i2 u e1 e2 : string) :
  in_range f1 -> in_range f2 ->
  Text.has_char "." e1 = false -> Text.has_char "." e2 = false ->
  date_str f1 ++ "/" ++ stamp_str f1 ++ " " ++ i1 ++ " " ++ u ++ "." ++ e1
  = date_str f2 ++ "/" ++ stamp_str f2 ++ " " ++ i2 ++ " " ++ u ++ "." ++ e2 ->
  f1 = f2 /\ i1 = i2.
Proof.
  intros R1 R2 D1 D2 E.
  apply (f_equal Text.chars) in E. rewrite !chars_app in E.
  change (Text.chars "/") with ["/"%char] in E.
  change (Text.chars " ") with [" "%char] in E.
  change (Text.chars ".") with ["."%char] in E.
  cbn [app] in E.
  apply split_first in E;
    [| apply has_char_In, all_of_stamp_has_char;
       [now apply date_str_stamp | reflexivity] ..].
  destruct E as [_ E].
  apply split_first in E;
    [| apply has_char_In, all_of_stamp_has_char;
       [now apply stamp_str_stamp | reflexivity] ..].
  destruct E as [Es E]. apply chars_inj in Es.
  split; [now apply stamp_str_inj|].
  rewrite !app_comm_cons, !app_assoc in E.
  apply split_last in E; [| now apply has_char_In ..].
  destruct E as [E _]. apply app_inv_tail in E. now apply chars_inj.
Qed.

(** C5: for one output root and one user name, two well-formed items of
    recognised kinds (the extensions free of dots) whose pairs of time stamp
    and id differ are given different output paths. *)
Theorem media_output_injective (self : SnapchatDL) (username : string)
  (su1 su2 : value) (w1 w2 : World) (m1 m2 : ref) (item1 item2 : value)
  (it1 it2 : StoryItem) (ext1 ext2 : string) :
  nth_error (store w1) m1 = Some item1 ->
  nth_error (store w2) m2 = Some item2 ->
  story_item item1 = Some it1 ->
  story_item item2 = Some it2 ->
  extension_of (mediaType it1) = Some ext1 ->
  extension_of (mediaType it2) = Some ext2 ->
  Text.has_char "." ext1 = false ->
  Text.has_char "." ext2 = false ->
  (timestampSeconds it1, id it1) <> (timestampSeconds it2, id it2) ->
  exists p1 p2 : string,
    fst (_download_media self m1 username su1 w1) = Ret (mediaUrl it1, p1) /\
    fst (_download_media self m2 username su2 w2) = Ret (mediaUrl it2, p2) /\
    p1 <> p2.
Proof.
  intros Hm1 Hm2 Hi1 Hi2 He1 He2 Hd1 Hd2 Hne.
  rewrite !_download_media_returns.
  rewrite (nth_of_nth_error _ _ _ Hm1), (nth_of_nth_error _ _ _ Hm2).
  rewrite (name_item_well_formed _ _ _ _ _ Hi1 He1).
  rewrite (name_item_well_formed _ _ _ _ _ Hi2 He2).
  eexists. eexists. split; [reflexivity|]. split; [reflexivity|].
  intros E. apply (f_equal Text.chars) in E. rewrite !(chars_app (dir_prefix _ _)) in E.
  apply app_inv_head in E. apply chars_inj in E. unfold file_name in E.
  pose proof (utc_fields_range _ (story_item_range _ _ Hi1)) as R1.
  pose proof (utc_fields_range _ (story_item_range _ _ Hi2)) as R2.
  destruct (file_path_inj _ _ _ _ _ _ _ R1 R2 Hd1 Hd2 E) as [Ef Ei].
  apply utc_fields_inj in Ef. apply Hne. now rewrite Ef, Ei.
Qed.

(* ================================================================= *)
(** ** Properties: the Namer and the store *)

(** The Namer adds at most one object to the store, the copy it dumps, and
    writes to no other. *)
Lemma _download_media_store (self : SnapchatDL) (media : ref) (username : string)
  (snap_user : value) (w : World) :
  store (snd (_download_media self media username snap_user w)) = store w \/
  exists d : list (string * value),
    nth media (store w) VNone = VDict d /\ dump_json self = true /\
    store (snd (_download_media self media username snap_user w))
    = (store w ++ [VDict (Py.dict_set d "snapUser" snap_user)])%list.
Proof.
  unfold _download_media, media_sub, os_makedirs.
  destruct (nth media (store w) VNone) as [| b | z | s | l | d] eqn:Hitem;
    try (left; repeat (namer_step; rewrite ?Hitem); reflexivity).
  do 10 (namer_read Hitem; [|left; reflexivity]).
  repeat (namer_step; rewrite ?store_after; rewrite ?Hitem).
  destruct (dump_json self).
  - right. exists d. split; [reflexivity|]. split; [reflexivity|].
    match goal with
    | |- store (snd (bind ?m ?k ?w1)) = _ =>
        rewrite (bind_Ret_at m k w1 _ tt (sidecar_at media snap_user _ w1 d Hitem))
    end.
    reflexivity.
  - left. reflexivity.
Qed.

Lemma _download_media_frame (self : SnapchatDL) (media : ref) (username : string)
  (snap_user : value) (w : World) (r : ref) (v : value) :
  nth_error (store w) r = Some v ->
  nth_error (store (snd (_download_media self media username snap_user w))) r = Some v.
Proof.
  intros H.
  destruct (_download_media_store self media username snap_user w)
    as [E | (d & _ & _ & E)]; rewrite E; [exact H|].
  rewrite nth_error_app1; [exact H|]. apply nth_error_Some. congruence.
Qed.

(** C9: the pair the Namer returns is a function of the output root, the
    item and the user name: two calls on the same item and user name return
    the same pair (or raise the same exception) whatever the rest of the
    world (the clock, the trace, the network, the other objects), the user
    profile passed along and the other settings are; and a second call right
    after the first returns what the first did. *)
Theorem _download_media_deterministic (self1 self2 : SnapchatDL) (m1 m2 : ref)
  (username : string) (su1 su2 : value) (w1 w2 : World) (item : value) :
  directory_prefix self1 = directory_prefix self2 ->
  nth_error (store w1) m1 = Some item ->
  nth_error (store w2) m2 = Some item ->
  fst (_download_media self1 m1 username su1 w1)
  = fst (_download_media self2 m2 username su2 w2) /\
  fst (_download_media self1 m1 username su1
         (snd (_download_media self1 m1 username su1 w1)))
  = fst (_download_media self1 m1 username su1 w1).
Proof.
  intros Hr H1 H2. rewrite !_download_media_returns.
  rewrite (nth_of_nth_error _ _ _ H1), (nth_of_nth_error _ _ _ H2).
  rewrite (nth_of_nth_error _ _ _ (_download_media_frame _ _ _ _ _ _ _ H1)).
  now rewrite Hr.
Qed.

(** The whole effect of the Namer on a well-formed item of a recognised
    kind. *)
Lemma _download_media_well_formed (self : SnapchatDL) (media : ref)
  (username : string) (snap_user : value) (w : World) (item : value)
  (it : StoryItem) (ext : string) :
  nth_error (store w) media = Some item ->
  story_item item = Some it ->
  extension_of (mediaType it) = Some ext ->
  let f := Calendar.utc_fields (timestampSeconds it) in
  let dir := Path.join (directory_prefix self) [username; date_str f] in
  let file := file_name username it ext in
  exists d : list (string * value),
    item = VDict d /\
    _download_media self media username snap_user w =
      (Ret (mediaUrl it, Path.join dir [file]),
       if dump_json self then
         after (with_store (after w [EvMakedirs dir])
                  (store w ++ [VDict (Py.dict_set d "snapUser" snap_user)]))
           [EvDump (VDict (Py.dict_set d "snapUser" snap_user))
              (Path.join dir [file ++ ".json"])]
       else after w [EvMakedirs dir]).
Proof.
  intros Hm Hi He f dir file.
  destruct (story_item_reads _ _ Hi)
    as (a & b & c & v & E1 & E2 & E3 & E4 & E5 & E6 & E7 & E8 & R).
  destruct (sub_Ret _ _ _ E1) as (d & -> & _). exists d. split; [reflexivity|].
  pose proof (nth_of_nth_error _ _ _ Hm) as Hitem.
  pose proof (utc_fields_range _ R) as F.
  unfold _download_media, media_sub, os_makedirs.
  repeat (namer_step; rewrite ?store_after; rewrite ?Hitem).
  rewrite E1. repeat (namer_step; rewrite ?store_after; rewrite ?Hitem).
  rewrite E2. repeat (namer_step; rewrite ?store_after; rewrite ?Hitem).
  rewrite E3. repeat (namer_step; rewrite ?store_after; rewrite ?Hitem).
  rewrite E4. repeat (namer_step; rewrite ?store_after; rewrite ?Hitem).
  rewrite E5. repeat (namer_step; rewrite ?store_after; rewrite ?Hitem).
  rewrite E6. repeat (namer_step; rewrite ?store_after; rewrite ?Hitem).
  rewrite E7. repeat (namer_step; rewrite ?store_after; rewrite ?Hitem).
  rewrite E8. repeat (namer_step; rewrite ?store_after; rewrite ?Hitem).
  rewrite (extension_of_getitem _ _ He).
  repeat (namer_step; rewrite ?store_after; rewrite ?Hitem).
  cbn [Py.str]. unfold Calendar.strf_time.
  rewrite (strftime_template _ F), (strftime_date _ F), (format_template _ _ _ _ F).
  repeat (namer_step; rewrite ?store_after; rewrite ?Hitem).
  fold f. fold dir. fold (file_name username it ext). fold file.
  destruct (dump_json self).
  - match goal with
    | |- bind ?m ?k ?w1 = _ =>
        rewrite (bind_Ret_at m k w1 _ tt (sidecar_at media snap_user _ w1 d Hitem))
    end.
    reflexivity.
  - reflexivity.
Qed.

(** C10: naming a well-formed item leaves the item as it was, and every
    other object of the store too.  With the sidecar enabled, the dict that
    is dumped is a new object: the entries of the item with [snapUser] set,
    while the item itself holds what it held. *)
Theorem _download_media_keeps_item (self : SnapchatDL) (media : ref)
  (username : string) (snap_user : value) (w : World) (item : value)
  (it : StoryItem) (ext : string) :
  nth_error (store w) media = Some item ->
  story_item item = Some it ->
  extension_of (mediaType it) = Some ext ->
  let w' := snd (_download_media self media username snap_user w) in
  nth_error (store w') media = Some item /\
  (forall (r : ref) (v : value),
      nth_error (store w) r = Some v -> nth_error (store w') r = Some v) /\
  (dump_json self = false ->
   store w' = store w /\
   trace w' = (trace w ++ [EvMakedirs (Path.join (directory_prefix self)
                             [username;
                              date_str (Calendar.utc_fields (timestampSeconds it))])])%list) /\
  (dump_json self = true ->
   exists (d : list (string * value)) (path : string),
     item = VDict d /\
     store w' = (store w ++ [VDict (Py.dict_set d "snapUser" snap_user)])%list /\
     trace w' = (trace w ++ [EvMakedirs (Path.join (directory_prefix self)
                               [username;
                                date_str (Calendar.utc_fields (timestampSeconds it))]);
                             EvDump (VDict (Py.dict_set d "snapUser" snap_user)) path])%list).
Proof.
  intros Hm Hi He w'.
  destruct (_download_media_well_formed self media username snap_user w item it ext
              Hm Hi He) as (d & -> & E).
  subst w'. split; [now apply _download_media_frame|].
  split; [intros r v; apply _download_media_frame|].
  rewrite E. cbn [snd]. split; intros D; rewrite D.
  - split; [reflexivity|]. now rewrite trace_after.
  - eexists. eexists. split; [reflexivity|]. split; [reflexivity|].
    rewrite trace_after. cbn [trace with_store]. rewrite trace_after.
    now rewrite <- app_assoc.
Qed.

(* ================================================================= *)
(** ** Properties: the story limit *)

Lemma _web_fetch_story_limit_story (self : SnapchatDL) (l : Z) (username : string) :
  _web_fetch_story (with_limit_story self l) username = _web_fetch_story self username.
Proof. reflexivity. Qed.

Lemma submit_story_limit_story (self : SnapchatDL) (l : Z) (username : string)
  (snap_user : value) :
  submit_story (with_limit_story self l) username snap_user
  = submit_story self username snap_user.
Proof. reflexivity. Qed.

(** [download] never reads [limit_story]: the run is the same whatever the
    limit is. *)
Lemma download_limit_story (self : SnapchatDL) (l : Z) (username : string) :
  download (with_limit_story self l) username = download self username.
Proof.
  unfold download. rewrite _web_fetch_story_limit_story.
  reflexivity.
Qed.

(* ================================================================= *)
(** ** Properties: the submissions *)

Lemma nth_error_fresh (s : list value) (v : value) :
  nth_error (s ++ [v]) (List.length s) = Some v.
Proof.
  rewrite nth_error_app2 by lia. now rewrite Nat.sub_diag.
Qed.

Lemma submit_story_well_formed (self : SnapchatDL) (username : string)
  (snap_user item : value) (info : StoryItem * string) (w : World) :
  names item info ->
  exists w' : World,
    submit_story self username snap_user item w = (Ret tt, w') /\
    submitted (trace w') = (submitted (trace w) ++ [task_of self username info])%list.
Proof.
  destruct info as [it ext]. intros [Hi He]. cbn [fst snd] in *.
  unfold submit_story. rewrite bind_alloc.
  set (w1 := with_store w (store w ++ [item])).
  assert (Hm : nth_error (store w1) (List.length (store w)) = Some item)
    by apply nth_error_fresh.
  destruct (_download_media_well_formed self _ username snap_user w1 item it ext
              Hm Hi He) as (d & -> & E).
  rewrite (bind_Ret_at _ _ _ _ _ E). unfold executor_submit.
  eexists. split; [reflexivity|].
  cbn [emit]. unfold task_of.
  destruct (dump_json self); cbn [trace with_trace after with_store w1];
    rewrite !submitted_app; cbn [submitted flat_map app];
    now rewrite ?app_nil_r.
Qed.

Lemma for_each_submit_story (self : SnapchatDL) (username : string) (snap_user : value)
  (items : list value) (infos : list (StoryItem * string)) (w : World) :
  Forall2 names items infos ->
  exists w' : World,
    for_each items (submit_story self username snap_user) w = (Ret tt, w') /\
    submitted (trace w')
    = (submitted (trace w) ++ map (task_of self username) infos)%list.
Proof.
  intros H. revert w. induction H as [| item info items infos Hn _ IH]; intros w.
  - exists w. split; [reflexivity|]. cbn [map]. now rewrite app_nil_r.
  - destruct (submit_story_well_formed self username snap_user item info w Hn)
      as (w1 & E1 & S1).
    destruct (IH w1) as (w2 & E2 & S2).
    exists w2. split.
    + cbn [for_each]. now rewrite (bind_Ret_at _ _ _ _ _ E1).
    + rewrite S2, S1. cbn [map]. now rewrite <- app_assoc.
Qed.

(** A page with stories: one task per item, in the order of the snap list,
    whatever the story limit is. *)
Lemma download_submits_all (self : SnapchatDL) (username url : string) (w : World)
  (r : response) (raw : string) (rest : list string) (content user_info : value)
  (item : value) (items : list value) (infos : list (StoryItem * string)) :
  Py.format (endpoint_web self) [username] = Ret url ->
  network w url user_agent = Some r ->
  status_code r = 200 ->
  re_findall (regexp_web_json self) (text r) = raw :: rest ->
  json_loads raw = Ret content ->
  util_web_user_info content = Ret user_info ->
  util_web_story content = Ret (VList (item :: items)) ->
  Forall2 names (item :: items) infos ->
  0 < max_workers self ->
  exists w' : World,
    download self username w = (Ret tt, w') /\
    submitted (trace w')
    = (submitted (trace w) ++ map (task_of self username) infos)%list.
Proof.
  intros Hf Hn Hs Hm Hj Hu Hst Hw Hmax.
  pose proof (_web_fetch_story_decoded _ _ _ _ _ _ _ _ Hf Hn Hs Hm Hj) as H.
  cbv zeta in H. rewrite Hu, Hst in H.
  set (w1 := after w [EvGet url user_agent; EvFindall (regexp_web_json self) (text r);
                      EvLoads raw]) in *.
  set (n := Z.of_nat (List.length (item :: items))).
  set (w2 := after w1 [EvLog INFO ("[+] " ++ username ++ " has " ++ Text.of_Z n
                                     ++ " stories.");
                       EvExecutor (max_workers self)]).
  destruct (for_each_submit_story self username user_info _ _ w2 Hw) as (w3 & E3 & S3).
  exists (after w3 [EvLog INFO ("[âœ”] " ++ Text.of_Z n ++ " stories downloaded for "
                                  ++ username ++ ".")]).
  split.
  - unfold download.
    match goal with
    | |- bind ?m ?k w = _ =>
        rewrite (bind_Ret_at m k w w1 (Some (VList (item :: items), user_info)))
    end.
    + cbn [Py.truth negb Py.len]. rewrite bind_lift_Ret.
      unfold logger_info at 1. rewrite bind_emit.
      unfold ThreadPoolExecutor.
      destruct (max_workers self <=? 0) eqn:Em; [lia|].
      rewrite bind_emit, after_after. cbn [app]. fold n. fold w2.
      match goal with
      | |- bind ?m ?k w2 = _ => rewrite (bind_Ret_at m k w2 w3 tt)
      end.
      * rewrite bind_lift_Ret. unfold logger_info. fold n. reflexivity.
      * apply try_except_Ret_at. cbn [Py.iter]. now rewrite bind_lift_Ret.
    + apply try_except_Ret_at. now rewrite (bind_Ret_at _ _ _ _ _ H).
  - rewrite trace_after, submitted_app, S3. cbn [submitted flat_map app].
    rewrite app_nil_r. unfold w2, w1. rewrite !trace_after, !submitted_app.
    cbn [submitted flat_map app]. now rewrite !app_nil_r.
Qed.

(** C2: [download] submits one task for every item of the snap list and
    never reads [limit_story]: with [n] well-formed items on the page,
    [n] tasks are submitted whatever the configured limit is, also when it
    is smaller than [n]. *)
Theorem download_ignores_limit_story (self : SnapchatDL) (limit : Z)
  (username url : string) (w : World)
  (r : response) (raw : string) (rest : list string) (content user_info : value)
  (item : value) (items : list value) (infos : list (StoryItem * string)) :
  Py.format (endpoint_web self) [username] = Ret url ->
  network w url user_agent = Some r ->
  status_code r = 200 ->
  re_findall (regexp_web_json self) (text r) = raw :: rest ->
  json_loads raw = Ret content ->
  util_web_user_info content = Ret user_info ->
  util_web_story content = Ret (VList (item :: items)) ->
  Forall2 names (item :: items) infos ->
  0 < max_workers self ->
  let w' := snd (download (with_limit_story self limit) username w) in
  List.length (submitted (trace w'))
  = (List.length (submitted (trace w)) + List.length (item :: items))%nat.
Proof.
  intros Hf Hn Hs Hm Hj Hu Hst Hw Hmax w'. subst w'.
  rewrite download_limit_story.
  destruct (download_submits_all self username url w r raw rest content user_info
              item items infos Hf Hn Hs Hm Hj Hu Hst Hw Hmax) as (w' & E & S).
  rewrite E. cbn [snd]. rewrite S, length_app, length_map.
  now rewrite (Forall2_length Hw).
Qed.

(* ================================================================= *)
(** ** Further properties: the fetch *)

(** The URL of the story page: the user name is put after the [@], as it
    is. *)
Lemma format_endpoint (username : string) :
  Py.format the_endpoint_web [username] = Ret (Env.story_url username).
Proof.
  unfold Py.format, the_endpoint_web, Env.story_url.
  cbn [Text.chars list_ascii_of_string Py.format_chars obind]. now rewrite append_nil_r.
Qed.

(** [_api_response] makes one GET of [https://story.snapchat.com/@<username>]
    with the browser's user agent, and returns the response as it came. *)
Theorem _api_response_request (abs_prefix : string) (workers limit sleep : Z)
  (q d : bool) (username : string) (w : World) (r : response) :
  network w (Env.story_url username) user_agent = Some r ->
  _api_response (init abs_prefix workers limit sleep q d) username w =
    (Ret r, after w [EvGet ("https://story.snapchat.com/@" ++ username) user_agent]).
Proof.
  intros Hn. apply _api_response_answer; [apply format_endpoint | exact Hn].
Qed.

(** A status other than 200 and 404: the status is logged, the extraction
    is not tried, [download] logs that it could not fetch the data and
    returns; no task is submitted. *)
Theorem download_status_other (self : SnapchatDL) (username url : string) (w : World)
  (r : response) :
  Py.format (endpoint_web self) [username] = Ret url ->
  network w url user_agent = Some r ->
  status_code r <> 200 ->
  status_code r <> 404 ->
  let failed :=
    EvLog ERROR ("Failed to fetch data for '" ++ username ++ "'. Status code: "
                   ++ Text.of_Z (status_code r) ++ ".") in
  let gave_up :=
    EvLog ERROR ("Could not fetch data for '" ++ username
                   ++ "'. The user may not exist or has no public stories.") in
  download self username w = (Ret tt, after w [EvGet url user_agent; failed; gave_up]).
Proof.
  intros Hf Hn H2 H4 failed gave_up.
  assert (H : _web_fetch_story self username w =
              (Raise (mk_exn APIResponseError ""),
               after w [EvGet url user_agent; failed])).
  { unfold _web_fetch_story.
    rewrite (bind_Ret_at _ _ _ _ _ (_api_response_answer _ _ _ _ _ Hf Hn)).
    unfold requests_codes_ok.
    destruct (status_code r =? 200) eqn:E2; [lia|].
    destruct (status_code r =? 404) eqn:E4; [lia|]. cbn [negb].
    rewrite bind_bind. unfold logger_error. rewrite bind_emit.
    rewrite (bind_Raise_at _ _ _ _ _ (raise__at _ _)).
    now rewrite after_after. }
  rewrite (download_on_api_error _ _ _ _ _ H). now rewrite after_after.
Qed.

(** When the GET itself fails, the exception of [requests] leaves
    [download]: nothing is logged. *)
Theorem download_transport_failure (self : SnapchatDL) (username url : string)
  (w : World) :
  Py.format (endpoint_web self) [username] = Ret url ->
  network w url user_agent = None ->
  download self username w =
    (Raise (mk_exn RequestException ""), after w [EvGet url user_agent]).
Proof.
  intros Hf Hn.
  assert (A : _api_response self username w =
              (Raise (mk_exn RequestException ""), after w [EvGet url user_agent])).
  { unfold _api_response. rewrite Hf, bind_lift_Ret.
    unfold requests_get. rewrite bind_emit. rewrite network_after. now rewrite Hn. }
  assert (H : _web_fetch_story self username w =
              (Raise (mk_exn RequestException ""), after w [EvGet url user_agent])).
  { unfold _web_fetch_story. now rewrite (bind_Raise_at _ _ _ _ _ A). }
  unfold download.
  match goal with
  | |- bind ?m ?k w = _ =>
      rewrite (bind_Raise_at m k w (after w [EvGet url user_agent])
                 (mk_exn RequestException ""))
  end; [reflexivity|].
  match goal with
  | |- try_except ?body ?classes ?handler w = _ =>
      rewrite (try_except_Raise_at body classes handler w _ _
                 (bind_Raise_at _ _ _ _ _ H))
  end.
  reflexivity.
Qed.

(* ================================================================= *)
(** ** Further properties: the extraction *)

Lemma _web_fetch_story_read (self : SnapchatDL) (username url : string)
  (w : World) (r : response) (raw : string) (rest : list string) (content : value) :
  Py.format (endpoint_web self) [username] = Ret url ->
  network w url user_agent = Some r ->
  status_code r = 200 ->
  re_findall (regexp_web_json self) (text r) = raw :: rest ->
  json_loads raw = Ret content ->
  let w1 := after w [EvGet url user_agent; EvFindall (regexp_web_json self) (text r);
                     EvLoads raw] in
  _web_fetch_story self username w =
    match read_payload content with
    | Ret result => (Ret result, w1)
    | Raise e =>
        if handles [IndexError; KeyError; ValueError] e
        then (Raise (mk_exn APIResponseError ""),
              after w1 [EvLog ERROR ("Error parsing response for '" ++ username
                                       ++ "': " ++ exn_str e)])
        else (Raise e, w1)
    end.
Proof.
  intros Hf Hn Hs Hm Hj w1.
  rewrite (_web_fetch_story_decoded _ _ _ _ _ _ _ _ Hf Hn Hs Hm Hj).
  unfold read_payload.
  destruct (util_web_user_info content) as [user_info | e]; cbn [obind];
    cbv beta iota zeta; [| destruct (handles _ e); reflexivity].
  destruct (util_web_story content) as [stories | e]; cbn [obind];
    cbv beta iota zeta; [reflexivity | destruct (handles _ e); reflexivity].
Qed.

(** A lookup failure is caught by the handler of [_web_fetch_story], a type
    error by neither handler, whatever [snapchat_dlp.utils] declares. *)
Lemma handles_lookup (e : exn) :
  exn_class e = KeyError \/ exn_class e = IndexError ->
  handles [IndexError; KeyError; ValueError] e = true.
Proof. unfold handles. intros [-> | ->]; reflexivity. Qed.

Lemma handles_TypeError (e : exn) :
  exn_class e = TypeError ->
  handles [IndexError; KeyError; ValueError] e = false /\
  handles [APIResponseError] e = false.
Proof. unfold handles. intros ->. split; reflexivity. Qed.

(** A payload that decodes but lacks a part the readers subscript ([props],
    [pageProps], [$case], the variant the case names, [snapList]): the
    [KeyError] is logged with the missing key, the outcome is the same
    [APIResponseError] as for an undecodable payload, and [download] returns
    without a task. *)
Theorem download_missing_part (self : SnapchatDL) (username url : string)
  (w : World) (r : response) (raw : string) (rest : list string) (content : value)
  (e : exn) :
  Py.format (endpoint_web self) [username] = Ret url ->
  network w url user_agent = Some r ->
  status_code r = 200 ->
  re_findall (regexp_web_json self) (text r) = raw :: rest ->
  json_loads raw = Ret content ->
  read_payload content = Raise e ->
  exn_class e = KeyError \/ exn_class e = IndexError ->
  download self username w =
    (Ret tt,
     after w [EvGet url user_agent; EvFindall (regexp_web_json self) (text r);
              EvLoads raw;
              EvLog ERROR ("Error parsing response for '" ++ username ++ "': "
                             ++ exn_str e);
              EvLog ERROR ("Could not fetch data for '" ++ username
                             ++ "'. The user may not exist or has no public stories.")]).
Proof.
  intros Hf Hn Hs Hm Hj Hr Hc.
  pose proof (_web_fetch_story_read _ _ _ _ _ _ _ _ Hf Hn Hs Hm Hj) as H.
  cbv zeta in H. rewrite Hr, (handles_lookup _ Hc), after_after in H.
  rewrite (download_on_api_error _ _ _ _ _ H). now rewrite after_after.
Qed.

(** The key a dict lacks is what the [KeyError] says. *)
Lemma sub_missing (d : list (string * value)) (k : string) :
  Py.dict_get d k = None -> sub (VDict d) k = Raise (mk_exn KeyError (Text.repr k)).
Proof. intros H. unfold sub. cbn [Py.getitem]. now rewrite H. Qed.

(** A payload in which a part the readers subscript or search has the wrong
    type (page properties that are [null] or a number, a profile that is a
    string): the [TypeError] is taken by neither handler and leaves
    [download]; nothing is logged. *)
Theorem download_type_error (self : SnapchatDL) (username url : string)
  (w : World) (r : response) (raw : string) (rest : list string) (content : value)
  (e : exn) :
  Py.format (endpoint_web self) [username] = Ret url ->
  network w url user_agent = Some r ->
  status_code r = 200 ->
  re_findall (regexp_web_json self) (text r) = raw :: rest ->
  json_loads raw = Ret content ->
  read_payload content = Raise e ->
  exn_class e = TypeError ->
  download self username w =
    (Raise e,
     after w [EvGet url user_agent; EvFindall (regexp_web_json self) (text r);
              EvLoads raw]).
Proof.
  intros Hf Hn Hs Hm Hj Hr Hc.
  pose proof (_web_fetch_story_read _ _ _ _ _ _ _ _ Hf Hn Hs Hm Hj) as H.
  destruct (handles_TypeError _ Hc) as [Hin Hout].
  cbv zeta in H. rewrite Hr, Hin in H.
  unfold download.
  match goal with
  | |- bind ?m ?k w = _ =>
      rewrite (bind_Raise_at m k w
                 (after w [EvGet url user_agent;
                           EvFindall (regexp_web_json self) (text r); EvLoads raw]) e)
  end; [reflexivity|].
  match goal with
  | |- try_except ?body ?classes ?handler w = _ =>
      rewrite (try_except_Raise_at body classes handler w _ _
                 (bind_Raise_at _ _ _ _ _ H))
  end.
  now rewrite Hout.
Qed.

(** A snap list that is there but falsy ([[]], [null], [0], [false], [""],
    [{}]) is the no-stories outcome too. *)
Theorem download_falsy_snap_list (self : SnapchatDL) (username url : string)
  (w : World) (r : response) (raw : string) (rest : list string)
  (content stories user_info : value) :
  Py.format (endpoint_web self) [username] = Ret url ->
  network w url user_agent = Some r ->
  status_code r = 200 ->
  re_findall (regexp_web_json self) (text r) = raw :: rest ->
  json_loads raw = Ret content ->
  read_payload content = Ret (stories, user_info) ->
  Py.truth stories = false ->
  download self username w =
    (Ret tt,
     after w ([EvGet url user_agent; EvFindall (regexp_web_json self) (text r);
               EvLoads raw]
                ++ if quiet self then []
                   else [EvLog INFO (username ++ " has no stories.")])).
Proof.
  intros Hf Hn Hs Hm Hj Hr Ht.
  pose proof (_web_fetch_story_read _ _ _ _ _ _ _ _ Hf Hn Hs Hm Hj) as H.
  cbv zeta in H. rewrite Hr in H.
  unfold download.
  match goal with
  | |- bind ?m ?k w = _ =>
      rewrite (bind_Ret_at m k w
                 (after w [EvGet url user_agent;
                           EvFindall (regexp_web_json self) (text r); EvLoads raw])
                 (Some (stories, user_info)))
  end.
  - rewrite Ht. cbn [negb]. destruct (quiet self); cbn [negb].
    + unfold ret. now rewrite app_nil_r.
    + now rewrite logger_info_at, after_after.
  - apply try_except_Ret_at. now rewrite (bind_Ret_at _ _ _ _ _ H).
Qed.

(* ================================================================= *)
(** ** Further properties: the loop of [download] *)

(** The Namer submits nothing itself. *)
Lemma _download_media_no_submit (self : SnapchatDL) (media : ref) (username : string)
  (snap_user : value) (w : World) :
  submitted (trace (snd (_download_media self media username snap_user w)))
  = submitted (trace w).
Proof.
  unfold _download_media, media_sub, os_makedirs.
  destruct (nth media (store w) VNone) as [| b | z | s | l | d] eqn:Hitem;
    try (repeat (namer_step; rewrite ?Hitem); reflexivity).
  do 8 (namer_read Hitem; [|reflexivity]).
  namer_read Hitem;
    [| rewrite bind_lift_Raise; cbn [snd]; rewrite trace_after, submitted_app;
       apply app_nil_r].
  namer_read Hitem;
    [| rewrite bind_lift_Raise; cbn [snd]; rewrite trace_after, submitted_app;
       apply app_nil_r].
  repeat (namer_step; rewrite ?store_after; rewrite ?Hitem).
  destruct (dump_json self).
  - match goal with
    | |- submitted (trace (snd (bind ?m ?k ?w1))) = _ =>
        rewrite (bind_Ret_at m k w1 _ tt (sidecar_at media snap_user _ w1 d Hitem))
    end.
    cbn [snd ret]. rewrite trace_after. cbn [trace with_store].
    rewrite trace_after, !submitted_app. cbn [submitted flat_map app].
    now rewrite !app_nil_r.
  - rewrite bind_ret. cbn [snd ret]. rewrite trace_after, submitted_app.
    apply app_nil_r.
Qed.

(** An item the Namer raises on: the exception leaves [submit_story], and
    nothing is submitted for the item. *)
Lemma submit_story_raises (self : SnapchatDL) (username : string)
  (snap_user item : value) (e : exn) (w : World) :
  name_item (directory_prefix self) item username = Raise e ->
  exists w' : World,
    submit_story self username snap_user item w = (Raise e, w') /\
    submitted (trace w') = submitted (trace w).
Proof.
  intros H. unfold submit_story. rewrite bind_alloc.
  set (w1 := with_store w (store w ++ [item])).
  pose proof (_download_media_returns self (List.length (store w)) username snap_user w1)
    as R.
  pose proof (_download_media_no_submit self (List.length (store w)) username snap_user
                w1) as S.
  replace (nth (List.length (store w)) (store w1) VNone) with item in R
    by (symmetry; apply nth_fresh).
  rewrite H in R.
  destruct (_download_media self (List.length (store w)) username snap_user w1)
    as [o w2] eqn:E.
  cbn [fst snd] in *. subst o. exists w2. split; [|exact S].
  unfold bind. now rewrite E.
Qed.

Lemma for_each_app {A} (a b : list A) (body : A -> M unit) (w : World) :
  for_each (a ++ b) body w = bind (for_each a body) (fun _ => for_each b body) w.
Proof.
  revert w. induction a as [| x a IH]; intros w; [reflexivity|].
  cbn [app for_each]. rewrite bind_bind.
  destruct (body x w) as [[[] | e] w1] eqn:E.
  - rewrite !(bind_Ret_at _ _ _ _ _ E). apply IH.
  - now rewrite !(bind_Raise_at _ _ _ _ _ E).
Qed.

(** An item the Namer raises on (a field missing, a time stamp that is no
    number, a kind the table does not hold) ends the loop: the exception
    leaves [download], the items before it have their tasks submitted, the
    items after it are not looked at, and the closing log line is not
    written. *)
Theorem download_item_raises (self : SnapchatDL) (username url : string) (w : World)
  (r : response) (raw : string) (rest : list string) (content user_info : value)
  (good : list value) (bad : value) (later : list value)
  (infos : list (StoryItem * string)) (e : exn) :
  Py.format (endpoint_web self) [username] = Ret url ->
  network w url user_agent = Some r ->
  status_code r = 200 ->
  re_findall (regexp_web_json self) (text r) = raw :: rest ->
  json_loads raw = Ret content ->
  read_payload content = Ret (VList (good ++ bad :: later), user_info) ->
  Forall2 names good infos ->
  name_item (directory_prefix self) bad username = Raise e ->
  handles [KeyboardInterrupt] e = false ->
  0 < max_workers self ->
  exists w' : World,
    download self username w = (Raise e, w') /\
    submitted (trace w')
    = (submitted (trace w) ++ map (task_of self username) infos)%list.
Proof.
  intros Hf Hn Hs Hm Hj Hr Hg Hb Hk Hmax.
  pose proof (_web_fetch_story_read _ _ _ _ _ _ _ _ Hf Hn Hs Hm Hj) as H.
  cbv zeta in H. rewrite Hr in H.
  set (stories := (good ++ bad :: later)%list) in *.
  set (w1 := after w [EvGet url user_agent; EvFindall (regexp_web_json self) (text r);
                      EvLoads raw]) in *.
  set (n := Z.of_nat (List.length stories)).
  set (w2 := after w1 [EvLog INFO ("[+] " ++ username ++ " has " ++ Text.of_Z n
                                     ++ " stories.");
                       EvExecutor (max_workers self)]).
  destruct (for_each_submit_story self username user_info _ _ w2 Hg) as (w3 & E3 & S3).
  destruct (submit_story_raises self username user_info bad e w3 Hb) as (w4 & E4 & S4).
  assert (L : for_each stories (submit_story self username user_info) w2 = (Raise e, w4)).
  { unfold stories. rewrite for_each_app. rewrite (bind_Ret_at _ _ _ _ _ E3).
    cbn [for_each]. now rewrite (bind_Raise_at _ _ _ _ _ E4). }
  assert (T : Py.truth (VList stories) = true).
  { unfold stories. now destruct good. }
  exists w4. split.
  - unfold download.
    match goal with
    | |- bind ?m ?k w = _ =>
        rewrite (bind_Ret_at m k w w1 (Some (VList stories, user_info)))
    end.
    + rewrite T. cbn [negb Py.len]. rewrite bind_lift_Ret.
      unfold logger_info at 1. rewrite bind_emit.
      unfold ThreadPoolExecutor.
      destruct (max_workers self <=? 0) eqn:Em; [lia|].
      rewrite bind_emit, after_after. cbn [app]. fold n. fold w2.
      apply bind_Raise_at.
      match goal with
      | |- try_except ?body ?classes ?handler w2 = _ =>
          rewrite (try_except_Raise_at body classes handler w2 w4 e)
      end.
      * now rewrite Hk.
      * cbn [Py.iter]. now rewrite bind_lift_Ret.
    + apply try_except_Ret_at. now rewrite (bind_Ret_at _ _ _ _ _ H).
  - rewrite S4, S3. unfold w2, w1. rewrite !trace_after, !submitted_app.
    cbn [submitted flat_map app]. now rewrite !app_nil_r.
Qed.

(** A worker count that is not positive: the pool cannot be made; the
    [ValueError] leaves [download] after the line that counts the stories,
    and no item is named or submitted. *)
Theorem download_no_workers (self : SnapchatDL) (username url : string) (w : World)
  (r : response) (raw : string) (rest : list string) (content user_info : value)
  (item : value) (items : list value) :
  Py.format (endpoint_web self) [username] = Ret url ->
  network w url user_agent = Some r ->
  status_code r = 200 ->
  re_findall (regexp_web_json self) (text r) = raw :: rest ->
  json_loads raw = Ret content ->
  read_payload content = Ret (VList (item :: items), user_info) ->
  max_workers self <= 0 ->
  download self username w =
    (Raise (mk_exn ValueError "max_workers must be greater than 0"),
     after w [EvGet url user_agent; EvFindall (regexp_web_json self) (text r);
              EvLoads raw;
              EvLog INFO ("[+] " ++ username ++ " has "
                            ++ Text.of_Z (Z.of_nat (List.length (item :: items)))
                            ++ " stories.")]).
Proof.
  intros Hf Hn Hs Hm Hj Hr Hmax.
  pose proof (_web_fetch_story_read _ _ _ _ _ _ _ _ Hf Hn Hs Hm Hj) as H.
  cbv zeta in H. rewrite Hr in H.
  unfold download.
  match goal with
  | |- bind ?m ?k w = _ =>
      rewrite (bind_Ret_at m k w
                 (after w [EvGet url user_agent;
                           EvFindall (regexp_web_json self) (text r); EvLoads raw])
                 (Some (VList (item :: items), user_info)))
  end.
  - cbn [Py.truth negb Py.len]. rewrite bind_lift_Ret.
    unfold logger_info at 1. rewrite bind_emit, after_after. cbn [app].
    unfold ThreadPoolExecutor.
    destruct (max_workers self <=? 0) eqn:Em; [|lia].
    unfold Py.raise. now rewrite bind_lift_Raise.
  - apply try_except_Ret_at. now rewrite (bind_Ret_at _ _ _ _ _ H).
Qed.

(* ================================================================= *)
(** ** Further properties: the Namer *)

Lemma dict_get_set_same (d : list (string * value)) (k : string) (v : value) :
  Py.dict_get (Py.dict_set d k v) k = Some v.
Proof.
  induction d as [| [k' v'] d IH]; cbn [Py.dict_set Py.dict_get].
  - now rewrite String.eqb_refl.
  - destruct (String.eqb k' k) eqn:E; cbn [Py.dict_get]; rewrite E; [reflexivity | exact IH].
Qed.

Lemma dict_get_set_other (d : list (string * value)) (k k' : string) (v : value) :
  k' <> k -> Py.dict_get (Py.dict_set d k v) k' = Py.dict_get d k'.
Proof.
  intros N. induction d as [| [k0 v0] d IH]; cbn [Py.dict_set Py.dict_get].
  - destruct (String.eqb k k') eqn:E; [|reflexivity].
    apply String.eqb_eq in E. congruence.
  - destruct (String.eqb k0 k) eqn:E; cbn [Py.dict_get].
    + apply String.eqb_eq in E. subst k0.
      destruct (String.eqb k k') eqn:E'; [|reflexivity].
      apply String.eqb_eq in E'. congruence.
    + now rewrite IH.
Qed.

Lemma join2_append (p f x : string) :
  f <> "" -> Path.join2 p (f ++ x) = Path.join2 p f ++ x.
Proof.
  intros N. destruct f as [| c f]; [congruence|]. unfold Path.join2.
  cbn [String.append]. rewrite !startswith_cons.
  destruct (Ascii.eqb "/" c); [reflexivity|].
  destruct (String.eqb p "" || Text.endswith_char p "/");
    cbn [String.append]; now rewrite ?append_assoc.
Qed.

Lemma file_name_not_empty (username : string) (it : StoryItem) (ext : string) :
  file_name username it ext <> "".
Proof.
  unfold file_name, stamp_str, date_str, Calendar.pad4. discriminate.
Qed.

(** The sidecar of a well-formed item, when it is asked for.  The date
    directory (the output root, the user name and the date of the item's
    time stamp, joined) is made first; the sidecar is then written at the
    media output path (the file name joined to that directory) with [.json]
    appended; what is written is a new object of the store, with [snapUser]
    set to the user profile and every other key as the item has it. *)
Theorem sidecar_of_item (self : SnapchatDL) (media : ref) (username : string)
  (snap_user : value) (w : World) (item : value) (it : StoryItem) (ext : string) :
  nth_error (store w) media = Some item ->
  story_item item = Some it ->
  extension_of (mediaType it) = Some ext ->
  dump_json self = true ->
  let dir_name :=
    Path.join (directory_prefix self)
      [username; Calendar.strf_time (timestampSeconds it) "%Y-%m-%d"] in
  let filename :=
    Calendar.strf_time (timestampSeconds it) "%Y-%m-%d_%H-%M-%S"
      ++ " " ++ id it ++ " " ++ username ++ "." ++ ext in
  let media_output := Path.join dir_name [filename] in
  exists d d' : list (string * value),
    item = VDict d /\
    _download_media self media username snap_user w =
      (Ret (mediaUrl it, media_output),
       after (with_store w (store w ++ [VDict d']))
         [EvMakedirs dir_name; EvDump (VDict d') (media_output ++ ".json")]) /\
    Py.dict_get d' "snapUser" = Some snap_user /\
    (forall k : string, k <> "snapUser" -> Py.dict_get d' k = Py.dict_get d k).
Proof.
  intros Hm Hi He Hd dir_name filename media_output.
  destruct (_download_media_well_formed self media username snap_user w item it ext
              Hm Hi He) as (d & -> & E).
  cbv zeta in E. rewrite Hd in E.
  pose proof (story_item_range _ _ Hi) as R.
  assert (Ed : dir_name
               = Path.join (directory_prefix self)
                   [username; date_str (Calendar.utc_fields (timestampSeconds it))]).
  { unfold dir_name. now rewrite (strf_time_date _ R). }
  assert (Ef : filename = file_name username it ext).
  { unfold filename, file_name. now rewrite (strf_time_stamp _ R). }
  exists d, (Py.dict_set d "snapUser" snap_user).
  split; [reflexivity|]. split; [|split].
  - rewrite E. unfold media_output. rewrite Ed, Ef. f_equal.
    unfold Path.join at 2 4. cbn [fold_left].
    rewrite (join2_append _ _ _ (file_name_not_empty username it ext)).
    unfold after, with_trace, with_store. cbn [network store clock trace].
    now rewrite <- app_assoc.
  - apply dict_get_set_same.
  - intros k N. now apply dict_get_set_other.
Qed.

(** A user name that starts with the separator replaces the output root in
    [os.path.join]: the media of a well-formed item go under the user name
    taken as an absolute path, wherever the output root is. *)
Theorem absolute_username_replaces_root (self : SnapchatDL) (media : ref)
  (username : string) (snap_user : value) (w : World) (item : value)
  (it : StoryItem) (ext : string) :
  nth_error (store w) media = Some item ->
  story_item item = Some it ->
  extension_of (mediaType it) = Some ext ->
  Text.startswith username "/" = true ->
  fst (_download_media self media username snap_user w) =
    Ret (mediaUrl it,
         (if Text.endswith_char username "/" then username else username ++ "/")
           ++ Calendar.strf_time (timestampSeconds it) "%Y-%m-%d" ++ "/"
           ++ file_name username it ext).
Proof.
  intros Hm Hi He Hu.
  rewrite _download_media_returns, (nth_of_nth_error _ _ _ Hm).
  rewrite (name_item_well_formed _ _ _ _ _ Hi He).
  rewrite (strf_time_date _ (story_item_range _ _ Hi)).
  unfold dir_prefix, Path.join2. rewrite Hu.
  assert (N : String.eqb username "" = false).
  { destruct username; [discriminate | reflexivity]. }
  now rewrite N.
Qed.

(* ================================================================= *)
(** ** Further properties: the tasks of one run *)

Lemma task_path_inj (self : SnapchatDL) (username : string)
  (i1 i2 : StoryItem * string) (item1 item2 : value) :
  names item1 i1 -> names item2 i2 ->
  Text.has_char "." (snd i1) = false -> Text.has_char "." (snd i2) = false ->
  snd (fst (task_of self username i1)) = snd (fst (task_of self username i2)) ->
  (timestampSeconds (fst i1), id (fst i1)) = (timestampSeconds (fst i2), id (fst i2)).
Proof.
  destruct i1 as [it1 e1], i2 as [it2 e2]. unfold names. cbn [fst snd task_of].
  intros [Hi1 _] [Hi2 _] D1 D2 E.
  pose proof (utc_fields_range _ (story_item_range _ _ Hi1)) as R1.
  pose proof (utc_fields_range _ (story_item_range _ _ Hi2)) as R2.
  rewrite !join_date in E;
    try (now apply date_str_stamp); try apply date_str_not_empty;
    try (apply stamp_startswith; [now apply stamp_str_stamp | apply stamp_str_not_empty]).
  apply (f_equal Text.chars) in E. rewrite !(chars_app (dir_prefix _ _)) in E.
  apply app_inv_head in E. apply chars_inj in E. unfold file_name in E.
  destruct (file_path_inj _ _ _ _ _ _ _ R1 R2 D1 D2 E) as [Ef Ei].
  apply utc_fields_inj in Ef. now rewrite Ef, Ei.
Qed.

Lemma task_path_In (self : SnapchatDL) (username : string) (item : value)
  (info : StoryItem * string) (items : list value) (infos : list (StoryItem * string)) :
  names item info ->
  Text.has_char "." (snd info) = false ->
  Forall2 names items infos ->
  Forall (fun i => Text.has_char "." (snd i) = false) infos ->
  In (snd (fst (task_of self username info)))
    (map (fun t => snd (fst t)) (map (task_of self username) infos)) ->
  In (timestampSeconds (fst info), id (fst info))
    (map (fun i => (timestampSeconds (fst i), id (fst i))) infos).
Proof.
  intros Hn Hd H. induction H as [| item' info' items' infos' Hn' H' IH]; intros D I.
  - destruct I.
  - cbn [map] in *. inversion D as [| ? ? D1 D2]; subst. destruct I as [I | I].
    + left. symmetry.
      apply (task_path_inj self username info info' item item'); auto.
    + right. now apply IH.
Qed.

Lemma tasks_paths_NoDup (self : SnapchatDL) (username : string) (items : list value)
  (infos : list (StoryItem * string)) :
  Forall2 names items infos ->
  Forall (fun i => Text.has_char "." (snd i) = false) infos ->
  NoDup (map (fun i => (timestampSeconds (fst i), id (fst i))) infos) ->
  NoDup (map (fun t => snd (fst t)) (map (task_of self username) infos)).
Proof.
  intros H. induction H as [| item info items infos Hn H IH]; intros D N.
  - constructor.
  - cbn [map] in *. inversion D as [| ? ? D1 D2]; subst.
    inversion N as [| ? ? N1 N2]; subst. constructor; [|now apply IH].
    intros I. apply N1.
    now apply (task_path_In self username item info items infos).
Qed.

(** One run on a page of well-formed items of recognised kinds (the
    extensions free of dots) whose pairs of time stamp and id are pairwise
    different: the tasks submitted have pairwise different destination
    paths. *)
Theorem download_paths_distinct (self : SnapchatDL) (username url : string)
  (w : World) (r : response) (raw : string) (rest : list string)
  (content user_info : value) (item : value) (items : list value)
  (infos : list (StoryItem * string)) :
  Py.format (endpoint_web self) [username] = Ret url ->
  network w url user_agent = Some r ->
  status_code r = 200 ->
  re_findall (regexp_web_json self) (text r) = raw :: rest ->
  json_loads raw = Ret content ->
  util_web_user_info content = Ret user_info ->
  util_web_story content = Ret (VList (item :: items)) ->
  Forall2 names (item :: items) infos ->
  0 < max_workers self ->
  trace w = [] ->
  Forall (fun i => Text.has_char "." (snd i) = false) infos ->
  NoDup (map (fun i => (timestampSeconds (fst i), id (fst i))) infos) ->
  NoDup (map (fun t => snd (fst t))
           (submitted (trace (snd (download self username w))))).
Proof.
  intros Hf Hn Hs Hm Hj Hu Hst Hw Hmax Ht Hd Hk.
  destruct (download_submits_all self username url w r raw rest content user_info
              item items infos Hf Hn Hs Hm Hj Hu Hst Hw Hmax) as (w' & E & S).
  rewrite E. cbn [snd]. rewrite S, Ht. cbn [submitted flat_map app].
  now apply (tasks_paths_NoDup self username (item :: items)).
Qed.

(** A page of well-formed items of recognised kinds: [download] returns
    normally and has submitted one task per item, in the order of the snap
    list, each with the item's media URL, the path the Namer gave it and the
    configured pause. *)
Theorem download_one_task_per_item (self : SnapchatDL) (username url : string)
  (w : World) (r : response) (raw : string) (rest : list string)
  (content user_info : value) (item : value) (items : list value)
  (infos : list (StoryItem * string)) :
  Py.format (endpoint_web self) [username] = Ret url ->
  network w url user_agent = Some r ->
  status_code r = 200 ->
  re_findall (regexp_web_json self) (text r) = raw :: rest ->
  json_loads raw = Ret content ->
  util_web_user_info content = Ret user_info ->
  util_web_story content = Ret (VList (item :: items)) ->
  Forall2 names (item :: items) infos ->
  0 < max_workers self ->
  fst (download self username w) = Ret tt /\
  submitted (trace (snd (download self username w)))
  = (submitted (trace w) ++ map (task_of self username) infos)%list /\
  List.length infos = List.length (item :: items).
Proof.
  intros Hf Hn Hs Hm Hj Hu Hst Hw Hmax.
  destruct (download_submits_all self username url w r raw rest content user_info
              item items infos Hf Hn Hs Hm Hj Hu Hst Hw Hmax) as (w' & E & S).
  rewrite E. cbn [fst snd]. split; [reflexivity|]. split; [exact S|].
  symmetry. exact (Forall2_length Hw).
Qed.

End Program.

(* ================================================================= *)
(** ** Runs of the program *)

(** The program in the environment [Env], for the user [alice], with the
    output root [/out]. *)
Definition run_download (self : SnapchatDL) (body : response) : outcome unit * World :=
  download Env.flat_base Env.findall Env.loads Env.media_types self "alice"
    (Env.serving body).

Definition run_namer (self : SnapchatDL) (item : value) : outcome (value * string) * World :=
  _download_media Env.media_types self 0%nat "alice" Env.profile_info (Env.holding [item]).

Definition plain_dl : SnapchatDL := init "/out" 2 (-1) 1 false false.
Definition dumping_dl : SnapchatDL := init "/out" 2 (-1) 1 false true.
Definition limited_dl : SnapchatDL := init "/out" 2 1 1 false false.

Definition two_stories : string :=
  Env.story_json "abc" "1700000000" "0" ++ "," ++ Env.story_json "def" "1700000000" "1".

Ltac run := vm_compute; reflexivity.

Lemma download_status_404_witness :
  run_download plain_dl (mk_response 404 "Not Found") =
    (Ret tt,
     after (Env.serving (mk_response 404 "Not Found"))
       [EvGet (Env.story_url "alice") user_agent;
        EvLog ERROR "User 'alice' not found (404).";
        EvLog ERROR
          "Could not fetch data for 'alice'. The user may not exist or has no public stories."]).
Proof.
  refine (proj1 (proj2 (download_status_404 Env.flat_base Env.findall Env.loads
                          Env.media_types plain_dl "alice" (Env.story_url "alice")
                          (Env.serving (mk_response 404 "Not Found"))
                          (mk_response 404 "Not Found") _ _ _))); run.
Defined.






Lemma download_no_stories_witness :
  run_download plain_dl
    (mk_response 200 (Env.page (Env.payload_json (Env.q "userProfile" ++ ":"
                                                    ++ Env.profile_json)))) =
    (Ret tt,
     after (Env.serving
              (mk_response 200 (Env.page (Env.payload_json (Env.q "userProfile" ++ ":"
                                                              ++ Env.profile_json)))))
       [EvGet (Env.story_url "alice") user_agent;
        EvFindall the_regexp_web_json
          (Env.page (Env.payload_json (Env.q "userProfile" ++ ":" ++ Env.profile_json)));
        EvLoads (Env.payload_json (Env.q "userProfile" ++ ":" ++ Env.profile_json));
        EvLog INFO "alice has no stories."]).
Proof.
  refine (proj1 (proj2 (download_no_stories Env.flat_base Env.findall Env.loads
                          Env.media_types plain_dl "alice" (Env.story_url "alice") _
                          (mk_response 200 _)
                          (Env.payload_json (Env.q "userProfile" ++ ":" ++ Env.profile_json))
                          []
                          (VDict [("props",
                                   VDict [("pageProps",
                                           VDict [("userProfile",
                                                   VDict [("$case", VStr "publicProfileInfo");
                                                          ("publicProfileInfo",
                                                           Env.profile_info)])])])])
                          (VDict [("userProfile",
                                   VDict [("$case", VStr "publicProfileInfo");
                                          ("publicProfileInfo", Env.profile_info)])])
                          (VDict [("$case", VStr "publicProfileInfo");
                                  ("publicProfileInfo", Env.profile_info)])
                          (VStr "publicProfileInfo") Env.profile_info
                          _ _ _ _ _ _ _ _ _ _))); try run.
  left. run.
Defined.

Lemma download_no_profile_raises_witness :
  run_download plain_dl (mk_response 200 (Env.page (Env.payload_json ""))) =
    (Raise (mk_exn UserNotFoundError ""),
     after (Env.serving (mk_response 200 (Env.page (Env.payload_json ""))))
       [EvGet (Env.story_url "alice") user_agent;
        EvFindall the_regexp_web_json (Env.page (Env.payload_json ""));
        EvLoads (Env.payload_json "")]).
Proof.
  refine (download_no_profile_raises Env.flat_base Env.findall Env.loads
            Env.media_types plain_dl "alice" (Env.story_url "alice") _
            (mk_response 200 _) (Env.payload_json "") []
            (VDict [("props", VDict [("pageProps", VDict [])])]) (VDict [])
            _ _ _ _ _ _ _ _ _); run.
Defined.

(** One story item, an image of 2023-11-14 22:13:20 UTC, and what the Namer
    reads off it. *)
Definition item_abc : value := Env.story "abc" "1700000000" 0.
Definition item_def : value := Env.story "def" "1700000000" 1.
Definition item_unknown : value := Env.story "ghi" "1700000000" 2.

Definition read_abc : StoryItem :=
  mk_StoryItem "abc" (VStr "https://cf.sc-cdn.net/abc") (VInt 0) 1700000000.
Definition read_def : StoryItem :=
  mk_StoryItem "def" (VStr "https://cf.sc-cdn.net/def") (VInt 1) 1700000000.
Definition read_unknown : StoryItem :=
  mk_StoryItem "ghi" (VStr "https://cf.sc-cdn.net/ghi") (VInt 2) 1700000000.

Lemma media_output_shape_witness :
  fst (run_namer plain_dl item_abc) =
    Ret (VStr "https://cf.sc-cdn.net/abc",
         "/out/alice/2023-11-14/2023-11-14_22-13-20 abc alice.jpg").
Proof.
  refine (media_output_shape Env.media_types plain_dl 0%nat "alice" Env.profile_info
            (Env.holding [item_abc]) item_abc read_abc "jpg" _ _ _ _ _); run.
Defined.

(** C3, as stated: on a well-formed item the output path is not the one with
    underscores between the time stamp, the id and the user name. *)
Lemma media_output_not_underscored :
  story_item item_abc = Some read_abc /\
  extension_of Env.media_types (mediaType read_abc) = Some "jpg" /\
  spec_output_path "/out" "alice" read_abc "jpg"
  = "/out/alice/2023-11-14/2023-11-14_22-13-20_abc_alice.jpg" /\
  fst (run_namer plain_dl item_abc)
  <> Ret (mediaUrl read_abc, spec_output_path "/out" "alice" read_abc "jpg").
Proof.
  split; [run|]. split; [run|]. split; [run|].
  vm_compute. discriminate.
Qed.

Lemma media_extension_lookup_witness :
  (exists stem : string,
      fst (run_namer plain_dl item_def)
      = Ret (VStr "https://cf.sc-cdn.net/def", stem ++ "." ++ "mp4")) /\
  fst (run_namer plain_dl item_unknown)
  = Raise (mk_exn IndexError "list index out of range").
Proof.
  split.
  - refine (proj1 (media_extension_lookup Env.media_types plain_dl 0%nat "alice"
                     Env.profile_info (Env.holding [item_def]) item_def read_def _ _)
              "mp4" _); run.
  - refine (proj2 (media_extension_lookup Env.media_types plain_dl 0%nat "alice"
                     Env.profile_info (Env.holding [item_unknown]) item_unknown
                     read_unknown _ _)
              (mk_exn IndexError "list index out of range") _); run.
Defined.

(** C4, as stated: an item of a kind the table does not hold is given no
    fallback extension; the Namer raises. *)
Lemma unrecognised_kind_raises :
  story_item item_unknown = Some read_unknown /\
  extension_of Env.media_types (mediaType read_unknown) = None /\
  fst (run_namer plain_dl item_unknown)
  = Raise (mk_exn IndexError "list index out of range") /\
  forall result : value * string, fst (run_namer plain_dl item_unknown) <> Ret result.
Proof.
  split; [run|]. split; [run|]. split; [run|].
  intros result. vm_compute. discriminate.
Qed.

Lemma media_output_injective_witness :
  exists p1 p2 : string,
    fst (run_namer plain_dl item_abc) = Ret (VStr "https://cf.sc-cdn.net/abc", p1) /\
    fst (run_namer plain_dl item_def) = Ret (VStr "https://cf.sc-cdn.net/def", p2) /\
    p1 <> p2.
Proof.
  refine (media_output_injective Env.media_types plain_dl "alice" Env.profile_info
            Env.profile_info (Env.holding [item_abc]) (Env.holding [item_def])
            0%nat 0%nat item_abc item_def read_abc read_def "jpg" "mp4"
            _ _ _ _ _ _ _ _ _); try run.
  vm_compute. discriminate.
Defined.

Lemma _download_media_deterministic_witness :
  fst (run_namer plain_dl item_abc)
  = fst (_download_media Env.media_types dumping_dl 1%nat "alice" VNone
           (mk_World (fun _ _ => None) [item_def; item_abc] 1700000000
              [EvLog INFO "later"])) /\
  fst (_download_media Env.media_types plain_dl 0%nat "alice" Env.profile_info
         (snd (run_namer plain_dl item_abc)))
  = fst (run_namer plain_dl item_abc).
Proof.
  refine (_download_media_deterministic Env.media_types plain_dl dumping_dl 0%nat 1%nat
            "alice" Env.profile_info VNone (Env.holding [item_abc])
            (mk_World (fun _ _ => None) [item_def; item_abc] 1700000000
               [EvLog INFO "later"])
            item_abc _ _ _); run.
Defined.

Lemma _download_media_keeps_item_witness :
  nth_error (store (snd (run_namer dumping_dl item_abc))) 0 = Some item_abc.
Proof.
  refine (proj1 (_download_media_keeps_item Env.media_types dumping_dl 0%nat "alice"
                   Env.profile_info (Env.holding [item_abc]) item_abc read_abc "jpg"
                   _ _ _)); run.
Defined.

Definition page_two_stories : response :=
  mk_response 200 (Env.page (Env.payload_with_stories two_stories)).

Lemma download_ignores_limit_story_witness :
  List.length
    (submitted
       (trace (snd (download Env.flat_base Env.findall Env.loads Env.media_types
                      (with_limit_story plain_dl 1) "alice"
                      (Env.serving page_two_stories)))))
  = (List.length (submitted (trace (Env.serving page_two_stories)))
     + List.length [item_abc; item_def])%nat.
Proof.
  pose proof (download_ignores_limit_story Env.flat_base Env.findall Env.loads
            Env.media_types plain_dl 1 "alice" (Env.story_url "alice")
            (Env.serving page_two_stories)
            page_two_stories (Env.payload_with_stories two_stories) []
            (VDict [("props",
                     VDict [("pageProps",
                             VDict [("userProfile",
                                     VDict [("$case", VStr "publicProfileInfo");
                                            ("publicProfileInfo", Env.profile_info)]);
                                    ("story",
                                     VDict [("snapList", VList [item_abc; item_def])])])])])
            Env.profile_info item_abc [item_def]
            [(read_abc, "jpg"); (read_def, "mp4")]) as H.
  assert (H1 : Py.format (endpoint_web plain_dl) ["alice"] = Ret (Env.story_url "alice")) by run.
  assert (H2 : network (Env.serving page_two_stories) (Env.story_url "alice") user_agent = Some page_two_stories) by run.
  assert (H3 : status_code page_two_stories = 200) by run.
  assert (H4 : Env.findall (regexp_web_json plain_dl) (text page_two_stories) = [Env.payload_with_stories two_stories]) by run.
  assert (H5 : Env.loads (Env.payload_with_stories two_stories) = Ret (VDict [("props",
                     VDict [("pageProps",
                             VDict [("userProfile",
                                     VDict [("$case", VStr "publicProfileInfo");
                                            ("publicProfileInfo", Env.profile_info)]);
                                    ("story",
                                     VDict [("snapList", VList [item_abc; item_def])])])])])) by run.
  specialize (H H1 H2 H3 H4 H5).
  assert (H6 : Forall2 (names Env.media_types) [item_abc; item_def] [(read_abc, "jpg"); (read_def, "mp4")]).
  { repeat constructor. }
  specialize (H eq_refl eq_refl H6 eq_refl).
  exact H.
Defined.

(** C2 on that page: the limit is 1, two tasks are submitted. *)
Lemma limit_story_not_applied :
  limit_story limited_dl = 1 /\
  submitted
    (trace (snd (run_download limited_dl
                   page_two_stories)))
  = [(VStr "https://cf.sc-cdn.net/abc",
      "/out/alice/2023-11-14/2023-11-14_22-13-20 abc alice.jpg", 1);
     (VStr "https://cf.sc-cdn.net/def",
      "/out/alice/2023-11-14/2023-11-14_22-13-20 def alice.mp4", 1)].
Proof. split; run. Qed.

(* ================================================================= *)
(** ** Further runs *)

Definition content_two_stories : value :=
  VDict [("props",
          VDict [("pageProps",
                  VDict [("userProfile",
                          VDict [("$case", VStr "publicProfileInfo");
                                 ("publicProfileInfo", Env.profile_info)]);
                         ("story", VDict [("snapList", VList [item_abc; item_def])])])])].

Lemma _api_response_request_witness :
  _api_response plain_dl "alice" (Env.serving (mk_response 404 "")) =
    (Ret (mk_response 404 ""),
     after (Env.serving (mk_response 404 ""))
       [EvGet ("https://story.snapchat.com/@" ++ "alice") user_agent]).
Proof.
  exact (_api_response_request "/out" 2 (-1) 1 false false "alice"
           (Env.serving (mk_response 404 "")) (mk_response 404 "") eq_refl).
Defined.

Lemma download_status_other_witness :
  run_download plain_dl (mk_response 500 "") =
    (Ret tt,
     after (Env.serving (mk_response 500 ""))
       [EvGet (Env.story_url "alice") user_agent;
        EvLog ERROR ("Failed to fetch data for '" ++ "alice" ++ "'. Status code: "
                       ++ Text.of_Z 500 ++ ".");
        EvLog ERROR
          ("Could not fetch data for '" ++ "alice"
             ++ "'. The user may not exist or has no public stories.")]).
Proof.
  refine (download_status_other Env.flat_base Env.findall Env.loads Env.media_types
            plain_dl "alice" (Env.story_url "alice") (Env.serving (mk_response 500 ""))
            (mk_response 500 "") _ _ _ _); try run; cbn [status_code]; lia.
Defined.

Lemma download_transport_failure_witness :
  download Env.flat_base Env.findall Env.loads Env.media_types plain_dl "alice"
    (Env.holding []) =
    (Raise (mk_exn RequestException ""),
     after (Env.holding []) [EvGet (Env.story_url "alice") user_agent]).
Proof.
  refine (download_transport_failure Env.flat_base Env.findall Env.loads
            Env.media_types plain_dl "alice" (Env.story_url "alice") (Env.holding [])
            _ _); run.
Defined.

Lemma download_missing_part_witness :
  run_download plain_dl (mk_response 200 (Env.page "{}")) =
    (Ret tt,
     after (Env.serving (mk_response 200 (Env.page "{}")))
       [EvGet (Env.story_url "alice") user_agent;
        EvFindall (regexp_web_json plain_dl) (text (mk_response 200 (Env.page "{}")));
        EvLoads "{}";
        EvLog ERROR ("Error parsing response for '" ++ "alice" ++ "': "
                       ++ exn_str (mk_exn KeyError "'props'"));
        EvLog ERROR
          ("Could not fetch data for '" ++ "alice"
             ++ "'. The user may not exist or has no public stories.")]).
Proof.
  refine (download_missing_part Env.flat_base Env.findall Env.loads Env.media_types
            plain_dl "alice" (Env.story_url "alice")
            (Env.serving (mk_response 200 (Env.page "{}")))
            (mk_response 200 (Env.page "{}")) "{}" [] (VDict [])
            (mk_exn KeyError "'props'") _ _ _ _ _ _ _); try run.
  left. reflexivity.
Defined.

Definition payload_null_props : string :=
  "{" ++ Env.q "props" ++ ":{" ++ Env.q "pageProps" ++ ":null}}".

Lemma download_type_error_witness :
  run_download plain_dl (mk_response 200 (Env.page payload_null_props)) =
    (Raise (mk_exn TypeError "argument of type 'NoneType' is not iterable"),
     after (Env.serving (mk_response 200 (Env.page payload_null_props)))
       [EvGet (Env.story_url "alice") user_agent;
        EvFindall (regexp_web_json plain_dl)
          (text (mk_response 200 (Env.page payload_null_props)));
        EvLoads payload_null_props]).
Proof.
  refine (download_type_error Env.flat_base Env.findall Env.loads Env.media_types
            plain_dl "alice" (Env.story_url "alice")
            (Env.serving (mk_response 200 (Env.page payload_null_props)))
            (mk_response 200 (Env.page payload_null_props)) payload_null_props []
            (VDict [("props", VDict [("pageProps", VNone)])])
            (mk_exn TypeError "argument of type 'NoneType' is not iterable")
            _ _ _ _ _ _ _); run.
Defined.

Definition payload_null_list : string :=
  Env.payload_json (Env.q "userProfile" ++ ":" ++ Env.profile_json ++ ","
                      ++ Env.q "story" ++ ":{" ++ Env.q "snapList" ++ ":null}").

Lemma download_falsy_snap_list_witness :
  run_download plain_dl (mk_response 200 (Env.page payload_null_list)) =
    (Ret tt,
     after (Env.serving (mk_response 200 (Env.page payload_null_list)))
       ([EvGet (Env.story_url "alice") user_agent;
         EvFindall (regexp_web_json plain_dl)
           (text (mk_response 200 (Env.page payload_null_list)));
         EvLoads payload_null_list]
          ++ if quiet plain_dl then [] else [EvLog INFO ("alice" ++ " has no stories.")])).
Proof.
  refine (download_falsy_snap_list Env.flat_base Env.findall Env.loads Env.media_types
            plain_dl "alice" (Env.story_url "alice")
            (Env.serving (mk_response 200 (Env.page payload_null_list)))
            (mk_response 200 (Env.page payload_null_list)) payload_null_list []
            (VDict [("props",
                     VDict [("pageProps",
                             VDict [("userProfile",
                                     VDict [("$case", VStr "publicProfileInfo");
                                            ("publicProfileInfo", Env.profile_info)]);
                                    ("story", VDict [("snapList", VNone)])])])])
            VNone Env.profile_info _ _ _ _ _ _ _); run.
Defined.

Lemma download_one_task_per_item_witness :
  fst (download Env.flat_base Env.findall Env.loads Env.media_types plain_dl "alice"
         (Env.serving page_two_stories)) = Ret tt /\
  submitted
    (trace (snd (download Env.flat_base Env.findall Env.loads Env.media_types plain_dl
                   "alice" (Env.serving page_two_stories))))
  = (submitted (trace (Env.serving page_two_stories))
       ++ map (task_of plain_dl "alice") [(read_abc, "jpg"); (read_def, "mp4")])%list /\
  List.length [(read_abc, "jpg"); (read_def, "mp4")] = List.length [item_abc; item_def].
Proof.
  assert (H1 : Py.format (endpoint_web plain_dl) ["alice"] = Ret (Env.story_url "alice"))
    by run.
  assert (H2 : network (Env.serving page_two_stories) (Env.story_url "alice") user_agent
               = Some page_two_stories) by run.
  assert (H3 : status_code page_two_stories = 200) by run.
  assert (H4 : Env.findall (regexp_web_json plain_dl) (text page_two_stories)
               = [Env.payload_with_stories two_stories]) by run.
  assert (H5 : Env.loads (Env.payload_with_stories two_stories) = Ret content_two_stories)
    by run.
  assert (H6 : Forall2 (names Env.media_types) [item_abc; item_def]
                 [(read_abc, "jpg"); (read_def, "mp4")])
    by (repeat constructor).
  assert (H7 : 0 < max_workers plain_dl) by reflexivity.
  exact (download_one_task_per_item Env.flat_base Env.findall Env.loads Env.media_types
           plain_dl "alice" (Env.story_url "alice") (Env.serving page_two_stories)
           page_two_stories (Env.payload_with_stories two_stories) []
           content_two_stories Env.profile_info item_abc [item_def]
           [(read_abc, "jpg"); (read_def, "mp4")] H1 H2 H3 H4 H5 eq_refl eq_refl H6 H7).
Defined.

Definition three_stories : string :=
  Env.story_json "abc" "1700000000" "0" ++ "," ++ Env.story_json "ghi" "1700000000" "2"
    ++ "," ++ Env.story_json "def" "1700000000" "1".

Definition page_three_stories : response :=
  mk_response 200 (Env.page (Env.payload_with_stories three_stories)).

Definition content_three_stories : value :=
  VDict [("props",
          VDict [("pageProps",
                  VDict [("userProfile",
                          VDict [("$case", VStr "publicProfileInfo");
                                 ("publicProfileInfo", Env.profile_info)]);
                         ("story",
                          VDict [("snapList",
                                  VList [item_abc; item_unknown; item_def])])])])].

Lemma download_item_raises_witness :
  exists w' : World,
    download Env.flat_base Env.findall Env.loads Env.media_types plain_dl "alice"
      (Env.serving page_three_stories)
    = (Raise (mk_exn IndexError "list index out of range"), w') /\
    submitted (trace w')
    = (submitted (trace (Env.serving page_three_stories))
         ++ map (task_of plain_dl "alice") [(read_abc, "jpg")])%list.
Proof.
  assert (H1 : Py.format (endpoint_web plain_dl) ["alice"] = Ret (Env.story_url "alice"))
    by run.
  assert (H2 : network (Env.serving page_three_stories) (Env.story_url "alice")
                 user_agent = Some page_three_stories) by run.
  assert (H3 : status_code page_three_stories = 200) by run.
  assert (H4 : Env.findall (regexp_web_json plain_dl) (text page_three_stories)
               = [Env.payload_with_stories three_stories]) by run.
  assert (H5 : Env.loads (Env.payload_with_stories three_stories)
               = Ret content_three_stories) by run.
  assert (H6 : Forall2 (names Env.media_types) [item_abc] [(read_abc, "jpg")])
    by (repeat constructor).
  assert (H7 : name_item Env.media_types (directory_prefix plain_dl) item_unknown "alice"
               = Raise (mk_exn IndexError "list index out of range")) by run.
  assert (H8 : handles Env.flat_base [KeyboardInterrupt]
                 (mk_exn IndexError "list index out of range") = false) by run.
  assert (H9 : 0 < max_workers plain_dl) by reflexivity.
  exact (download_item_raises Env.flat_base Env.findall Env.loads Env.media_types
           plain_dl "alice" (Env.story_url "alice") (Env.serving page_three_stories)
           page_three_stories (Env.payload_with_stories three_stories) []
           content_three_stories Env.profile_info [item_abc] item_unknown [item_def]
           [(read_abc, "jpg")] (mk_exn IndexError "list index out of range")
           H1 H2 H3 H4 H5 eq_refl H6 H7 H8 H9).
Defined.

Definition idle_dl : SnapchatDL := init "/out" 0 (-1) 1 false false.

Lemma download_no_workers_witness :
  download Env.flat_base Env.findall Env.loads Env.media_types idle_dl "alice"
    (Env.serving page_two_stories) =
    (Raise (mk_exn ValueError "max_workers must be greater than 0"),
     after (Env.serving page_two_stories)
       [EvGet (Env.story_url "alice") user_agent;
        EvFindall (regexp_web_json idle_dl) (text page_two_stories);
        EvLoads (Env.payload_with_stories two_stories);
        EvLog INFO ("[+] " ++ "alice" ++ " has "
                      ++ Text.of_Z (Z.of_nat (List.length [item_abc; item_def]))
                      ++ " stories.")]).
Proof.
  assert (H1 : Py.format (endpoint_web idle_dl) ["alice"] = Ret (Env.story_url "alice"))
    by run.
  assert (H2 : network (Env.serving page_two_stories) (Env.story_url "alice") user_agent
               = Some page_two_stories) by run.
  assert (H3 : status_code page_two_stories = 200) by run.
  assert (H4 : Env.findall (regexp_web_json idle_dl) (text page_two_stories)
               = [Env.payload_with_stories two_stories]) by run.
  assert (H5 : Env.loads (Env.payload_with_stories two_stories) = Ret content_two_stories)
    by run.
  assert (H6 : max_workers idle_dl <= 0) by (cbn; lia).
  exact (download_no_workers Env.flat_base Env.findall Env.loads Env.media_types
           idle_dl "alice" (Env.story_url "alice") (Env.serving page_two_stories)
           page_two_stories (Env.payload_with_stories two_stories) []
           content_two_stories Env.profile_info item_abc [item_def]
           H1 H2 H3 H4 H5 eq_refl H6).
Defined.

Lemma sidecar_of_item_witness :
  exists d d' : list (string * value),
    item_abc = VDict d /\
    _download_media Env.media_types dumping_dl 0%nat "alice" Env.profile_info
      (Env.holding [item_abc]) =
      (Ret (VStr "https://cf.sc-cdn.net/abc",
            "/out/alice/2023-11-14/2023-11-14_22-13-20 abc alice.jpg"),
       after (with_store (Env.holding [item_abc])
                (store (Env.holding [item_abc]) ++ [VDict d']))
         [EvMakedirs "/out/alice/2023-11-14";
          EvDump (VDict d')
            "/out/alice/2023-11-14/2023-11-14_22-13-20 abc alice.jpg.json"]) /\
    Py.dict_get d' "snapUser" = Some Env.profile_info /\
    (forall k : string, k <> "snapUser" -> Py.dict_get d' k = Py.dict_get d k).
Proof.
  exact (sidecar_of_item Env.media_types dumping_dl 0%nat "alice" Env.profile_info
           (Env.holding [item_abc]) item_abc read_abc "jpg"
           eq_refl eq_refl eq_refl eq_refl).
Defined.

Lemma absolute_username_replaces_root_witness :
  fst (_download_media Env.media_types plain_dl 0%nat "/tmp/x" Env.profile_info
         (Env.holding [item_abc])) =
    Ret (mediaUrl read_abc,
         (if Text.endswith_char "/tmp/x" "/" then "/tmp/x" else "/tmp/x" ++ "/")
           ++ Calendar.strf_time (timestampSeconds read_abc) "%Y-%m-%d" ++ "/"
           ++ file_name "/tmp/x" read_abc "jpg").
Proof.
  exact (absolute_username_replaces_root Env.media_types plain_dl 0%nat "/tmp/x"
           Env.profile_info (Env.holding [item_abc]) item_abc read_abc "jpg"
           eq_refl eq_refl eq_refl eq_refl).
Defined.

Lemma download_paths_distinct_witness :
  NoDup (map (fun t => snd (fst t))
           (submitted
              (trace (snd (download Env.flat_base Env.findall Env.loads Env.media_types
                             plain_dl "alice" (Env.serving page_two_stories)))))).
Proof.
  assert (H1 : Py.format (endpoint_web plain_dl) ["alice"] = Ret (Env.story_url "alice"))
    by run.
  assert (H2 : network (Env.serving page_two_stories) (Env.story_url "alice") user_agent
               = Some page_two_stories) by run.
  assert (H3 : status_code page_two_stories = 200) by run.
  assert (H4 : Env.findall (regexp_web_json plain_dl) (text page_two_stories)
               = [Env.payload_with_stories two_stories]) by run.
  assert (H5 : Env.loads (Env.payload_with_stories two_stories) = Ret content_two_stories)
    by run.
  assert (H6 : Forall2 (names Env.media_types) [item_abc; item_def]
                 [(read_abc, "jpg"); (read_def, "mp4")])
    by (repeat constructor).
  assert (H7 : 0 < max_workers plain_dl) by reflexivity.
  assert (H8 : Forall (fun i : StoryItem * string => Text.has_char "." (snd i) = false)
                 [(read_abc, "jpg"); (read_def, "mp4")])
    by (repeat constructor).
  assert (H9 : NoDup (map (fun i : StoryItem * string =>
                             (timestampSeconds (fst i), id (fst i)))
                        [(read_abc, "jpg"); (read_def, "mp4")])).
  { repeat constructor; cbn; intuition discriminate. }
  exact (download_paths_distinct Env.flat_base Env.findall Env.loads Env.media_types
           plain_dl "alice" (Env.story_url "alice") (Env.serving page_two_stories)
           page_two_stories (Env.payload_with_stories two_stories) []
           content_two_stories Env.profile_info item_abc [item_def]
           [(read_abc, "jpg"); (read_def, "mp4")]
           H1 H2 H3 H4 H5 eq_refl eq_refl H6 H7 eq_refl H8 H9).
Defined.
